(** * torchmf: matrix factorisation pipeline (src/torchmf.py)

    A shallow embedding of [Interactions], [BaseModule], [BPRModule] and
    [BasePipeline].  Vectors and [B x 1] columns are lists of scalars,
    matrices are lists of rows, and the shape rules of broadcasting and of
    in-place operations are written out; Python exceptions are the [Raise]
    branch of [result], the process-wide random generator is threaded
    explicitly, and the floating-point scalars are kept abstract behind the
    [Scalar] interface: the facts about doubles a statement relies on are
    named wherever they are used. *)

From Stdlib Require Import ZArith List Bool Lia.
From stdpp Require Import base option list gmap strings.

Local Open Scope Z_scope.

(** ** Exceptions *)

Inductive exn : Type :=
  | AttributeError
  | IndexError
  | TypeError
  | ValueError
  | RuntimeError.

Inductive result (A : Type) : Type :=
  | Ok (a : A)
  | Raise (e : exn).

Arguments Ok {A} a.
Arguments Raise {A} e.

#[global] Instance result_ret : MRet result := fun A a => Ok a.

#[global] Instance result_bind : MBind result := fun A B k r =>
  match r with
  | Ok a => k a
  | Raise e => Raise e
  end.

Fixpoint mapR {A B : Type} (f : A -> result B) (l : list A) : result (list B) :=
  match l with
  | [] => Ok []
  | x :: l' => y ← f x; ys ← mapR f l'; Ok (y :: ys)
  end.

(** ** Scalars

    The code computes with doubles (and float32 for the stored ratings).
    [Scalar] lists the operations the program performs on them. *)

Class Scalar (F : Type) : Type := {
  fzero : F;
  fone : F;
  fadd : F -> F -> F;
  fsub : F -> F -> F;
  fmul : F -> F -> F;
  fdiv : F -> F -> F;
  fneg : F -> F;
  feqb : F -> F -> bool;
  fltb : F -> F -> bool;
  (* [astype(np.float32)] *)
  fcast32 : F -> F;
  (* Python's [float(len(...))] in [total_loss /= len(...)] *)
  of_int : Z -> F
}.

(** ** Index tensors and indexing

    [t[index]] on a one-dimensional tensor: a negative index counts from the
    end, anything outside [-len, len) raises [IndexError]. *)

Definition tensor_getitem {A : Type} (t : list A) (index : Z) : result A :=
  let n := Z.of_nat (length t) in
  let i := if index <? 0 then index + n else index in
  if (i <? 0) || (n <=? i) then Raise IndexError
  else match t !! Z.to_nat i with
       | Some x => Ok x
       | None => Raise IndexError
       end.

Section Store.

Context {F : Type} `{Scalar F}.

(** A scipy sparse matrix, seen through what the code reads of it: its
    declared shape and its stored entries. *)
Record spmatrix : Type := {
  sp_shape : Z * Z;
  sp_entries : list (Z * Z * F)
}.

(** Coordinate form: three parallel arrays. *)
Record coo_matrix : Type := {
  shape : Z * Z;
  row : list Z;
  col : list Z;
  data : list F
}.

Definition tocoo (m : spmatrix) : coo_matrix :=
  {| shape := sp_shape m;
     row := map (fun e => fst (fst e)) (sp_entries m);
     col := map (fun e => snd (fst e)) (sp_entries m);
     data := map snd (sp_entries m) |}.

Definition nnz (m : coo_matrix) : Z := Z.of_nat (length (data m)).

(** [None.tocoo()] *)
Definition opt_tocoo (m : option spmatrix) : result coo_matrix :=
  match m with
  | Some m => Ok (tocoo m)
  | None => Raise AttributeError
  end.

Record Interactions : Type := {
  train : bool;
  train_data : coo_matrix;
  test_data : coo_matrix;
  n_users : Z;
  n_items : Z;
  train_row : list Z;
  train_col : list Z;
  train_val : list F;
  test_row : list Z;
  test_col : list Z;
  test_val : list F
}.

(** [Interactions.__init__] (lines 21-34). *)
Definition Interactions_init (train_data0 : spmatrix)
    (test_data0 : option spmatrix) (train0 : bool) : result Interactions :=
  let trd := tocoo train_data0 in
  ted ← opt_tocoo test_data0;
  Ok {| train := train0;
        train_data := trd;
        test_data := ted;
        n_users := fst (shape trd);
        n_items := snd (shape trd);
        train_row := row trd;
        train_col := col trd;
        train_val := map fcast32 (data trd);
        test_row := row ted;
        test_col := col ted;
        test_val := map fcast32 (data ted) |}.

(** [Interactions.__getitem__] (lines 36-46). *)
Definition Interactions_getitem (self : Interactions) (index : Z)
    : result ((Z * Z) * F) :=
  if train self then
    r ← tensor_getitem (train_row self) index;
    c ← tensor_getitem (train_col self) index;
    v ← tensor_getitem (train_val self) index;
    Ok ((r, c), v)
  else
    r ← tensor_getitem (test_row self) index;
    c ← tensor_getitem (test_col self) index;
    v ← tensor_getitem (test_val self) index;
    Ok ((r, c), v).

(** [Interactions.__len__] (lines 48-52). *)
Definition Interactions_len (self : Interactions) : Z :=
  if train self then nnz (train_data self) else nnz (test_data self).

(** The three arrays of the split that [self] serves. *)
Definition split_row (self : Interactions) : list Z :=
  if train self then train_row self else test_row self.
Definition split_col (self : Interactions) : list Z :=
  if train self then train_col self else test_col self.
Definition split_val (self : Interactions) : list F :=
  if train self then train_val self else test_val self.

End Store.

Arguments spmatrix F : clear implicits.
Arguments coo_matrix F : clear implicits.
Arguments Interactions F : clear implicits.

(** ** The process-wide random generator

    [torch.manual_seed], and what the program draws from the generator:
    normal samples (embedding initialisation), uniform samples (the
    Bernoulli noise of dropout) and permutations (the shuffling loaders). *)

Class Random (F : Type) : Type := {
  rng : Type;
  manual_seed : Z -> rng;
  rng_normal : rng -> F * rng;
  rng_uniform : rng -> F * rng;
  rng_randperm : nat -> rng -> list nat * rng
}.

(** Computations that read and advance a state and may raise; what was
    written to the state before an exception stays written. *)
Definition stateR (S A : Type) : Type := S -> result A * S.

#[global] Instance stateR_ret {S : Type} : MRet (stateR S) :=
  fun A a s => (Ok a, s).

#[global] Instance stateR_bind {S : Type} : MBind (stateR S) :=
  fun A B k m s =>
    match m s with
    | (Ok a, s') => k a s'
    | (Raise e, s') => (Raise e, s')
    end.

Definition raise {S A : Type} (e : exn) : stateR S A := fun s => (Raise e, s).

Definition lift_result {S A : Type} (r : result A) : stateR S A :=
  fun s => (r, s).

(** A step that cannot raise. *)
Definition total {S A : Type} (f : S -> A * S) : stateR S A :=
  fun s => let '(a, s') := f s in (Ok a, s').

Section Tensors.

Context {F : Type} `{Scalar F} `{Random F}.

Fixpoint draw_row (draw : rng -> F * rng) (n : nat) (g : rng) : list F * rng :=
  match n with
  | O => ([], g)
  | S n' =>
      let '(x, g1) := draw g in
      let '(xs, g2) := draw_row draw n' g1 in
      (x :: xs, g2)
  end.

Fixpoint draw_matrix (draw : rng -> F * rng) (rows cols : nat) (g : rng)
    : list (list F) * rng :=
  match rows with
  | O => ([], g)
  | S rows' =>
      let '(r, g1) := draw_row draw cols g in
      let '(rs, g2) := draw_matrix draw rows' cols g1 in
      (r :: rs, g2)
  end.

(** A matrix of draws with the shape of [x]. *)
Fixpoint draw_like (draw : rng -> F * rng) (x : list (list F)) (g : rng)
    : list (list F) * rng :=
  match x with
  | [] => ([], g)
  | r :: x' =>
      let '(d, g1) := draw_row draw (length r) g in
      let '(ds, g2) := draw_like draw x' g1 in
      (d :: ds, g2)
  end.

(** Shapes, and the broadcasting rule: the two shapes are aligned on
    their last dimension; two sizes go together when they are equal or one
    of them is 1. *)
Fixpoint broadcast_aligned (a b : list nat) : option (list nat) :=
  match a, b with
  | [], _ => Some b
  | _, [] => Some a
  | x :: a', y :: b' =>
      if Nat.eqb x y then cons x <$> broadcast_aligned a' b'
      else if Nat.eqb x 1 then cons y <$> broadcast_aligned a' b'
      else if Nat.eqb y 1 then cons x <$> broadcast_aligned a' b'
      else None
  end.

Definition broadcast_shapes (a b : list nat) : option (list nat) :=
  reverse <$> broadcast_aligned (reverse a) (reverse b).

(** An in-place operation keeps the shape of the tensor it writes to: the
    broadcast shape has to be that shape. *)
Definition inplace_ok (self_shape other_shape : list nat) : bool :=
  match broadcast_shapes self_shape other_shape with
  | Some s => bool_decide (s = self_shape)
  | None => false
  end.

(** The pairs that an elementwise operation works on, along one dimension:
    position by position when the two sizes agree, and one side repeated
    when its size is 1. *)
Definition bpairs {A B : Type} (a : list A) (b : list B)
    : result (list (A * B)) :=
  if Nat.eqb (length a) (length b) then Ok (zip a b)
  else match a, b with
       | [x], _ => Ok (map (pair x) b)
       | _, [y] => Ok (map (fun x => (x, y)) a)
       | _, _ => Raise RuntimeError
       end.

(** An elementwise operation on two vectors, or on two [B x 1] columns. *)
Definition bzip (f : F -> F -> F) (a b : list F) : result (list F) :=
  ps ← bpairs a b; Ok (map (fun p => f (fst p) (snd p)) ps).

(** An elementwise operation on two matrices, given as lists of rows. *)
Definition bzip2 (f : F -> F -> F) (a b : list (list F))
    : result (list (list F)) :=
  ps ← bpairs a b; mapR (fun p => bzip f (fst p) (snd p)) ps.

Definition tmul2 (a b : list (list F)) : result (list (list F)) :=
  bzip2 fmul a b.
Definition tsub2 (a b : list (list F)) : result (list (list F)) :=
  bzip2 fsub a b.

(** [t.sum()] of a vector and [t.sum(1)] of a matrix: the second
    dimension is summed away, a vector with one entry per row is left.
    The entries are added from left to right, starting from zero. *)
Definition tsum (r : list F) : F := fold_left fadd r fzero.
Definition sum1 (t : list (list F)) : list F := map tsum t.

(** [col += v] for a [P x 1] column [col] and a vector [v] of [Q] entries
    (line 124).  Where the in-place rule lets it through, [v] has one entry,
    which is added to every row of the column. *)
Definition iadd_column (col v : list F) : result (list F) :=
  if inplace_ok [length col; 1%nat] [length v] then
    Ok (map (fun p => fadd p (default fzero (head v))) col)
  else Raise RuntimeError.

(** [v += col] for a vector [v] and a [P x 1] column [col] (lines 151 and
    152), under the same rule; the broadcast shape has two dimensions, so
    the rule never lets it through (lemma [iadd_vector_raises]). *)
Definition iadd_vector (v col : list F) : result (list F) :=
  if inplace_ok [length v] [length col; 1%nat] then
    Ok (map (fun x => fadd x (default fzero (head col))) v)
  else Raise RuntimeError.

(** [nn.Embedding.__call__]: one row of the weight per index. *)
Definition embedding {A : Type} (weight : list A) (idx : list Z)
    : result (list A) :=
  mapR (fun i =>
          if (i <? 0) || (Z.of_nat (length weight) <=? i) then Raise IndexError
          else match weight !! Z.to_nat i with
               | Some r => Ok r
               | None => Raise IndexError
               end) idx.

(** [nn.Dropout(p).__call__]: the identity outside training mode and for
    [p = 0], where nothing is drawn; for [p = 1] the input times zero,
    again without a draw; otherwise the input times a noise that is
    Bernoulli(1 - p) scaled by 1 / (1 - p). *)
Definition bernoulli (q u : F) : F := if fltb u q then fone else fzero.

Definition dropout_noise (p : F) (u : list (list F)) : list (list F) :=
  map (map (fun x => fdiv (bernoulli (fsub fone p) x) (fsub fone p))) u.

Definition zeros_like (x : list (list F)) : list (list F) :=
  map (map (fun _ => fzero)) x.

(** The product of a tensor with a noise of its own shape. *)
Definition hadamard (x noise : list (list F)) : list (list F) :=
  zip_with (zip_with fmul) x noise.

Definition dropout (training : bool) (p : F) (x : list (list F)) (g : rng)
    : list (list F) * rng :=
  if training && fltb fzero p then
    if feqb p fone then (hadamard x (zeros_like x), g)
    else
      let '(u, g') := draw_like rng_uniform x g in
      (hadamard x (dropout_noise p u), g')
  else (x, g).

(** What a loss function returns: a tensor of any number of dimensions,
    a scalar ([T0]) or a sequence of sub-tensors ([TN]). *)
#[warnings="-register-all"]
Inductive tensor : Type :=
  | T0 (x : F)
  | TN (items : list tensor).

Fixpoint numel (t : tensor) : nat :=
  match t with
  | T0 _ => 1%nat
  | TN items => list_sum (map numel items)
  end.

(** [t[0]]: not defined on a scalar nor on an empty first dimension. *)
Definition tensor_first (t : tensor) : result tensor :=
  match t with
  | TN (x :: _) => Ok x
  | _ => Raise IndexError
  end.

(** [total_loss += x] for the one-entry vector [total_loss]: [x] has to be
    a scalar or a one-entry vector. *)
Definition iadd_total (total_loss : F) (x : tensor) : result F :=
  match x with
  | T0 v => Ok (fadd total_loss v)
  | TN [T0 v] => Ok (fadd total_loss v)
  | _ => Raise RuntimeError
  end.

(** [nn.MSELoss(size_average=False)]: the zero-dimensional sum of the
    squared errors of a [P x 1] column against a vector of [Q] targets,
    which broadcast to [P x Q] differences. *)
Definition mse_sum (preds vals : list F) : tensor :=
  T0 (tsum (flat_map (fun p =>
                        map (fun v => fmul (fsub p v) (fsub p v)) vals)
                     preds)).

End Tensors.

Arguments tensor F : clear implicits.

Section Modules.

Context {F : Type} `{Scalar F} `{Random F}.

(** The learned parameters; a bias table is an [n x 1] embedding, kept as
    its single column. *)
Record Params : Type := {
  user_biases : list F;
  item_biases : list F;
  user_embeddings : list (list F);
  item_embeddings : list (list F)
}.

Record BaseModule : Type := {
  mod_n_users : Z;
  mod_n_items : Z;
  parameters : Params;
  dropout_p : F;
  (* [nn.Module.training], set by [train()] and [eval()] *)
  training : bool;
  loss_function : list F -> list F -> tensor F
}.

Definition set_training (b : bool) (m : BaseModule) : BaseModule :=
  {| mod_n_users := mod_n_users m;
     mod_n_items := mod_n_items m;
     parameters := parameters m;
     dropout_p := dropout_p m;
     training := b;
     loss_function := loss_function m |}.

Definition set_parameters (p : Params) (m : BaseModule) : BaseModule :=
  {| mod_n_users := mod_n_users m;
     mod_n_items := mod_n_items m;
     parameters := p;
     dropout_p := dropout_p m;
     training := training m;
     loss_function := loss_function m |}.

(** [nn.Embedding(n, d).double()]: an [n x d] weight of normal samples. *)
Definition Embedding_init (n d : Z) : stateR rng (list (list F)) :=
  if (n <? 0) || (d <? 0) then raise RuntimeError
  else total (draw_matrix rng_normal (Z.to_nat n) (Z.to_nat d)).

Definition column (w : list (list F)) : list F :=
  map (fun r => default fzero (head r)) w.

(** [BaseModule.__init__] (lines 83-98). *)
Definition BaseModule_init (n_users0 n_items0 n_factors0 : Z) (dropout_p0 : F)
    (loss_function0 : list F -> list F -> tensor F) : stateR rng BaseModule :=
  ub ← Embedding_init n_users0 1;
  ib ← Embedding_init n_items0 1;
  ue ← Embedding_init n_users0 n_factors0;
  ie ← Embedding_init n_items0 n_factors0;
  if fltb dropout_p0 fzero || fltb fone dropout_p0 then raise ValueError
  else mret {| mod_n_users := n_users0;
               mod_n_items := n_items0;
               parameters := {| user_biases := column ub;
                                item_biases := column ib;
                                user_embeddings := ue;
                                item_embeddings := ie |};
               dropout_p := dropout_p0;
               training := true;
               loss_function := loss_function0 |}.

(** [BaseModule.forward] (lines 120-126).  The two bias lookups are
    [B x 1] columns and so is their sum; [.sum(1)] is a vector of [B]
    entries, which line 124 adds in place to the column. *)
Definition forward (self : BaseModule) (users items : list Z)
    : stateR rng (list F) :=
  let p := parameters self in
  ues ← lift_result (embedding (user_embeddings p) users);
  uis ← lift_result (embedding (item_embeddings p) items);
  ub ← lift_result (embedding (user_biases p) users);
  ib ← lift_result (embedding (item_biases p) items);
  preds ← lift_result (bzip fadd ub ib);
  du ← total (dropout (training self) (dropout_p self) ues);
  di ← total (dropout (training self) (dropout_p self) uis);
  prod ← lift_result (tmul2 du di);
  lift_result (iadd_column preds (sum1 prod)).

(** [BPRModule.__init__] (lines 139-144): the base constructor with its
    default loss. *)
Definition BPRModule_init (n_users0 n_items0 n_factors0 : Z) (dropout_p0 : F)
    : stateR rng BaseModule :=
  BaseModule_init n_users0 n_items0 n_factors0 dropout_p0 mse_sum.

(** [BPRModule.forward] (lines 146-153).  Here [preds] starts as the
    vector [.sum(1)], and lines 151-152 add [B x 1] columns to it in
    place. *)
Definition BPR_forward (self : BaseModule) (users pos_items neg_items : list Z)
    : stateR rng (list F) :=
  let p := parameters self in
  ues ← lift_result (embedding (user_embeddings p) users);
  pe ← lift_result (embedding (item_embeddings p) pos_items);
  ne ← lift_result (embedding (item_embeddings p) neg_items);
  uis ← lift_result (tsub2 pe ne);
  du ← total (dropout (training self) (dropout_p self) ues);
  di ← total (dropout (training self) (dropout_p self) uis);
  prod ← lift_result (tmul2 du di);
  let preds := sum1 prod in
  ub ← lift_result (embedding (user_biases p) users);
  preds ← lift_result (iadd_vector preds ub);
  pb ← lift_result (embedding (item_biases p) pos_items);
  nb ← lift_result (embedding (item_biases p) neg_items);
  diff ← lift_result (bzip fsub pb nb);
  lift_result (iadd_vector preds diff).

End Modules.

Arguments Params F : clear implicits.
Arguments BaseModule F : clear implicits.

(** ** External collaborators of the pipeline: autodiff and the optimizer

    [backward m g users items vals] stands for [loss.backward()] after the
    forward pass of [m] started at generator state [g]: the gradients it
    leaves on the parameters, or the error autograd raises;
    [optimizer_step] is [optimizer.step()]. *)

Class Autograd (F : Type) `{Scalar F} `{Random F} : Type := {
  optim : Type;
  grads : Type;
  optimizer_init : Params F -> F -> F -> optim;
  backward : BaseModule F -> rng -> list Z -> list Z -> list F -> result grads;
  optimizer_step : optim -> Params F -> grads -> optim * Params F
}.

(** The classes that can be passed as [model]. *)
Inductive model_class : Type :=
  | BaseModule_cls
  | BPRModule_cls.

Section Pipeline.

Context {F : Type} `{Scalar F} `{Random F} `{!Autograd F}.

(** An entry of a loss history: a float ('train', 'test') or an epoch
    number ('epoch'). *)
Inductive pyval : Type :=
  | PyFloat (x : F)
  | PyInt (z : Z).

(** One progress line: epoch, train loss and, when there is one, test loss. *)
Definition progress_row : Type := (Z * F * option F)%type.

Record BasePipeline : Type := {
  train_interactions : Interactions F;
  (* [None]: the attribute was never assigned *)
  test_interactions : option (Interactions F);
  pl_n_users : Z;
  pl_n_items : Z;
  n_factors : Z;
  batch_size : Z;
  pl_dropout_p : F;
  lr : F;
  weight_decay : F;
  pl_loss_function : list F -> list F -> tensor F;
  n_epochs : Z;
  model : BaseModule F;
  optimizer : optim;
  warm_start : bool;
  (* [collections.defaultdict(list)] *)
  losses : gmap string (list pyval);
  verbose : bool
}.

Definition set_model (m : BaseModule F) (p : BasePipeline) : BasePipeline :=
  {| train_interactions := train_interactions p;
     test_interactions := test_interactions p;
     pl_n_users := pl_n_users p; pl_n_items := pl_n_items p;
     n_factors := n_factors p; batch_size := batch_size p;
     pl_dropout_p := pl_dropout_p p; lr := lr p;
     weight_decay := weight_decay p;
     pl_loss_function := pl_loss_function p; n_epochs := n_epochs p;
     model := m; optimizer := optimizer p; warm_start := warm_start p;
     losses := losses p; verbose := verbose p |}.

Definition set_optimizer (o : optim) (p : BasePipeline) : BasePipeline :=
  {| train_interactions := train_interactions p;
     test_interactions := test_interactions p;
     pl_n_users := pl_n_users p; pl_n_items := pl_n_items p;
     n_factors := n_factors p; batch_size := batch_size p;
     pl_dropout_p := pl_dropout_p p; lr := lr p;
     weight_decay := weight_decay p;
     pl_loss_function := pl_loss_function p; n_epochs := n_epochs p;
     model := model p; optimizer := o; warm_start := warm_start p;
     losses := losses p; verbose := verbose p |}.

Definition set_losses (l : gmap string (list pyval)) (p : BasePipeline)
    : BasePipeline :=
  {| train_interactions := train_interactions p;
     test_interactions := test_interactions p;
     pl_n_users := pl_n_users p; pl_n_items := pl_n_items p;
     n_factors := n_factors p; batch_size := batch_size p;
     pl_dropout_p := pl_dropout_p p; lr := lr p;
     weight_decay := weight_decay p;
     pl_loss_function := pl_loss_function p; n_epochs := n_epochs p;
     model := model p; optimizer := optimizer p; warm_start := warm_start p;
     losses := l; verbose := verbose p |}.

(** [d[k]] on a [defaultdict(list)], and [d[k].append(v)]. *)
Definition dd_get (k : string) (d : gmap string (list pyval)) : list pyval :=
  default [] (d !! k).

Definition dd_append (k : string) (v : pyval) (d : gmap string (list pyval))
    : gmap string (list pyval) :=
  <[k := dd_get k d ++ [v]]> d.

(** What a method of the pipeline can touch: the object itself, the
    process-wide generator and the standard output. *)
Record world : Type := {
  self : BasePipeline;
  gen : rng;
  stdout : list progress_row
}.

Definition modify_self (f : BasePipeline -> BasePipeline) : stateR world unit :=
  fun w => (Ok tt, {| self := f (self w); gen := gen w; stdout := stdout w |}).

Definition get_self : stateR world BasePipeline := fun w => (Ok (self w), w).

Definition get_gen : stateR world rng := fun w => (Ok (gen w), w).

Definition with_gen {A : Type} (m : stateR rng A) : stateR world A :=
  fun w => let '(r, g') := m (gen w) in
           (r, {| self := self w; gen := g'; stdout := stdout w |}).

Definition print (r : progress_row) : stateR world unit :=
  fun w => (Ok tt, {| self := self w; gen := gen w; stdout := stdout w ++ [r] |}).

(** [data.DataLoader(dataset, batch_size=1024, shuffle=True)]: a fresh
    permutation of the indices at each iteration, cut into batches. *)
Fixpoint batched {A : Type} (fuel : nat) (size : nat) (l : list A)
    : list (list A) :=
  match fuel with
  | O => []
  | S fuel' =>
      match l with
      | [] => []
      | _ => take size l :: batched fuel' size (drop size l)
      end
  end.

Definition loader_batch_size : nat := 1024.

Definition DataLoader_indices (dataset : Interactions F)
    : stateR world (list (list nat)) :=
  let n := Z.to_nat (Interactions_len dataset) in
  perm ← with_gen (total (rng_randperm n));
  mret (batched n loader_batch_size perm).

(** The default collate function: the batch as ((rows, cols), vals). *)
Definition collate (dataset : Interactions F) (idx : list nat)
    : result ((list Z * list Z) * list F) :=
  items ← mapR (fun i => Interactions_getitem dataset (Z.of_nat i)) idx;
  Ok ((map (fun x => fst (fst x)) items, map (fun x => snd (fst x)) items),
      map snd items).

(** [loss.backward()] (line 236): autograd starts from a loss of exactly
    one element. *)
Definition loss_backward (loss : tensor F) (r : result grads) : result grads :=
  if Nat.eqb (numel loss) 1 then r else Raise RuntimeError.

(** The body of the loop of [_fit_epoch] (lines 230-238). *)
Definition fit_batch (idx : list nat) (total_loss : F) : stateR world F :=
  p ← get_self;
  '((row0, col0), val0) ← lift_result (collate (train_interactions p) idx);
  g ← get_gen;
  preds ← with_gen (forward (model p) row0 col0);
  let loss := loss_function (model p) preds val0 in
  gr ← lift_result (loss_backward loss (backward (model p) g row0 col0 val0));
  let '(o', ps') := optimizer_step (optimizer p) (parameters (model p)) gr in
  _ ← modify_self (fun p => set_optimizer o' (set_model (set_parameters ps' (model p)) p));
  x ← lift_result (tensor_first loss);
  lift_result (iadd_total total_loss x).

(** The body of the loop of [_validation_loss] (lines 246-251). *)
Definition validation_batch (ds : Interactions F) (idx : list nat)
    (total_loss : F) : stateR world F :=
  p ← get_self;
  '((row0, col0), val0) ← lift_result (collate ds idx);
  preds ← with_gen (forward (model p) row0 col0);
  let loss := loss_function (model p) preds val0 in
  x ← lift_result (tensor_first loss);
  lift_result (iadd_total total_loss x).

Fixpoint for_batches (body : list nat -> F -> stateR world F)
    (batches : list (list nat)) (acc : F) : stateR world F :=
  match batches with
  | [] => mret acc
  | b :: rest => acc' ← body b acc; for_batches body rest acc'
  end.

(** [BasePipeline._fit_epoch] (lines 226-240). *)
Definition _fit_epoch : stateR world F :=
  _ ← modify_self (fun p => set_model (set_training true (model p)) p);
  p ← get_self;
  batches ← DataLoader_indices (train_interactions p);
  total_loss ← for_batches fit_batch batches fzero;
  mret (fdiv total_loss (of_int (Interactions_len (train_interactions p)))).

(** [BasePipeline._validation_loss] (lines 242-253); [self.test_loader]
    iterates [self.test_interactions]. *)
Definition _validation_loss : stateR world F :=
  _ ← modify_self (fun p => set_model (set_training false (model p)) p);
  p ← get_self;
  match test_interactions p with
  | None => raise AttributeError
  | Some ds =>
      batches ← DataLoader_indices ds;
      total_loss ← for_batches (validation_batch ds) batches fzero;
      mret (fdiv total_loss (of_int (Interactions_len ds)))
  end.

(** The body of the loop of [fit] (lines 217-224). [self.test_interactions]
    is only ever assigned an [Interactions] object, so where the attribute
    exists the test [is not None] holds. *)
Definition fit_step (epoch : Z) : stateR world unit :=
  l ← _fit_epoch;
  _ ← modify_self (fun p => set_losses (dd_append "train" (PyFloat l) (losses p)) p);
  p ← get_self;
  match test_interactions p with
  | None => raise AttributeError
  | Some _ =>
      v ← _validation_loss;
      _ ← modify_self (fun p => set_losses (dd_append "test" (PyFloat v) (losses p)) p);
      _ ← modify_self (fun p => set_losses (dd_append "epoch" (PyInt epoch) (losses p)) p);
      if verbose p then print (epoch, l, Some v) else mret tt
  end.

Fixpoint fit_loop (epochs : list Z) : stateR world unit :=
  match epochs with
  | [] => mret tt
  | epoch :: rest => _ ← fit_step epoch; fit_loop rest
  end.

(** [range(n)] *)
Definition range (n : Z) : list Z := map Z.of_nat (seq 0 (Z.to_nat n)).

(** [BasePipeline.fit] (lines 215-224). *)
Definition fit : stateR world unit :=
  p ← get_self;
  fit_loop (range (n_epochs p)).

(** [torch.manual_seed(seed)]; numpy's generator, seeded next to it, is
    read by nothing in this program. *)
Definition torch_manual_seed (seed : Z) : stateR rng unit :=
  fun _ => (Ok tt, manual_seed seed).

(** [data.DataLoader(dataset, batch_size=1024, shuffle=True)] (lines
    180-182 and 187-189): the constructor builds the random sampler, which
    refuses a dataset without entries. *)
Definition DataLoader_init (dataset : Interactions F) : result unit :=
  if Interactions_len dataset <=? 0 then Raise ValueError else Ok tt.

(** [BasePipeline.__init__] (lines 177-213). [BPRModule.__init__] takes no
    [loss_function] keyword. *)
Definition BasePipeline_init (train_data0 : spmatrix F)
    (test_data0 : option (spmatrix F)) (model0 : model_class)
    (n_factors0 batch_size0 : Z) (dropout_p0 lr0 weight_decay0 : F)
    (loss_function0 : list F -> list F -> tensor F) (n_epochs0 : Z)
    (verbose0 : bool) (random_seed : option Z) : stateR rng BasePipeline :=
  ti ← lift_result (Interactions_init train_data0 test_data0 true);
  _ ← lift_result (DataLoader_init ti);
  tei ← (match test_data0 with
         | Some _ =>
             x ← lift_result (Interactions_init train_data0 test_data0 false);
             _ ← lift_result (DataLoader_init x);
             mret (Some x)
         | None => mret None
         end : stateR rng (option (Interactions F)));
  let n_users0 := fst (sp_shape train_data0) in
  let n_items0 := snd (sp_shape train_data0) in
  m ← (match model0 with
       | BaseModule_cls =>
           BaseModule_init n_users0 n_items0 n_factors0 dropout_p0 loss_function0
       | BPRModule_cls => raise TypeError
       end : stateR rng (BaseModule F));
  let o := optimizer_init (parameters m) lr0 weight_decay0 in
  let p := {| train_interactions := ti;
              test_interactions := tei;
              pl_n_users := n_users0; pl_n_items := n_items0;
              n_factors := n_factors0; batch_size := batch_size0;
              pl_dropout_p := dropout_p0; lr := lr0;
              weight_decay := weight_decay0;
              pl_loss_function := loss_function0; n_epochs := n_epochs0;
              model := m; optimizer := o; warm_start := false;
              losses := ∅; verbose := verbose0 |} in
  _ ← (match random_seed with
       | Some seed => torch_manual_seed seed
       | None => mret tt
       end : stateR rng unit);
  mret p.

End Pipeline.

Arguments BasePipeline F {_ _ _}.
Arguments world F {_ _ _}.
Arguments pyval F : clear implicits.

(** ** Vocabulary of the statements *)

Section Vocabulary.

Context {F : Type} `{Scalar F} `{Random F} `{!Autograd F}.

Definition in_range (n i : Z) : Prop := 0 <= i < n.

(** The shape invariant of a module: every table has one row per id. *)
Definition wf_module (m : BaseModule F) : Prop :=
  Z.of_nat (length (user_biases (parameters m))) = mod_n_users m
  /\ Z.of_nat (length (user_embeddings (parameters m))) = mod_n_users m
  /\ Z.of_nat (length (item_biases (parameters m))) = mod_n_items m
  /\ Z.of_nat (length (item_embeddings (parameters m))) = mod_n_items m.

(** The rows of [weight] at the indices [idx]; what [embedding] returns
    when every index is in range. *)
Definition gather {A : Type} (dflt : A) (weight : list A) (idx : list Z)
    : list A :=
  map (fun i => default dflt (weight !! Z.to_nat i)) idx.

(** [x == 0] on doubles: true of both zeros, [+0.0] and [-0.0]. *)
Definition is_zero (x : F) : Prop := feqb x fzero = true.

(** A finite value: its product with zero is a zero (for an infinity or a
    NaN the product is a NaN). *)
Definition finite (x : F) : Prop := is_zero (fmul x fzero).

(** A value that is not a NaN compares equal to itself. *)
Definition not_nan (x : F) : Prop := feqb x x = true.

(** Facts about zero and one that hold of doubles under [==] and [<]:
    one equals one, zero is below one, zero is a zero, products and sums of
    zeros are zeros, and adding a zero to a number gives an equal number. *)
Definition zero_one_facts : Prop :=
  feqb (fone : F) fone = true
  /\ fltb (fzero : F) fone = true
  /\ is_zero fzero
  /\ (forall a b : F, is_zero a -> is_zero b -> is_zero (fmul a b))
  /\ (forall a b : F, is_zero a -> is_zero b -> is_zero (fadd a b))
  /\ (forall x z : F, not_nan x -> is_zero z -> feqb (fadd x z) x = true).

(** Every factor row of the module is [d] wide. *)
Definition factor_width (d : nat) (m : BaseModule F) : Prop :=
  Forall (fun r => length r = d) (user_embeddings (parameters m))
  /\ Forall (fun r => length r = d) (item_embeddings (parameters m)).

(** A fresh construction followed by [fit()], started at the generator
    state [g]; the result is [losses["train"]]. *)
Definition construct_and_fit (train_data0 : spmatrix F)
    (test_data0 : option (spmatrix F)) (n_factors0 : Z)
    (dropout_p0 lr0 weight_decay0 : F)
    (loss_function0 : list F -> list F -> tensor F) (n_epochs0 : Z)
    (random_seed : option Z) (g : rng) : result (list (pyval F)) :=
  match BasePipeline_init train_data0 test_data0 BaseModule_cls n_factors0 32
          dropout_p0 lr0 weight_decay0 loss_function0 n_epochs0 false
          random_seed g with
  | (Ok p, g') =>
      match fit {| self := p; gen := g'; stdout := [] |} with
      | (Ok _, w) => Ok (dd_get "train" (losses (self w)))
      | (Raise e, _) => Raise e
      end
  | (Raise e, _) => Raise e
  end.

(** The world right after a construction that succeeded. *)
Definition started (r : result (BasePipeline F) * rng) : option (world F) :=
  match r with
  | (Ok p, g) => Some {| self := p; gen := g; stdout := [] |}
  | (Raise _, _) => None
  end.

(** A pipeline object on which [test_interactions] was never assigned. *)
Definition without_test_interactions (p : BasePipeline F) : BasePipeline F :=
  {| train_interactions := train_interactions p;
     test_interactions := None;
     pl_n_users := pl_n_users p; pl_n_items := pl_n_items p;
     n_factors := n_factors p; batch_size := batch_size p;
     pl_dropout_p := pl_dropout_p p; lr := lr p;
     weight_decay := weight_decay p;
     pl_loss_function := pl_loss_function p; n_epochs := n_epochs p;
     model := model p; optimizer := optimizer p; warm_start := warm_start p;
     losses := losses p; verbose := verbose p |}.

(** [m] moves the pipeline object only along the relation [R]. *)
Definition respects {A : Type} (R : BasePipeline F -> BasePipeline F -> Prop)
    (m : stateR (world F) A) : Prop :=
  forall w, R (self w) (self (snd (m w))).

(** What training and validation leave alone: the histories, the stores,
    the number of epochs and the verbosity. *)
Definition same_bookkeeping (p p' : BasePipeline F) : Prop :=
  losses p' = losses p
  /\ test_interactions p' = test_interactions p
  /\ n_epochs p' = n_epochs p
  /\ verbose p' = verbose p.

(** What validation leaves alone: the four parameter tables. *)
Definition same_parameters (p p' : BasePipeline F) : Prop :=
  parameters (model p') = parameters (model p).

(** The three histories of a pipeline have one length. *)
Definition histories_aligned (p : BasePipeline F) : Prop :=
  length (dd_get "epoch" (losses p)) = length (dd_get "train" (losses p))
  /\ length (dd_get "train" (losses p)) = length (dd_get "test" (losses p)).

End Vocabulary.

(** ** Conditions and frames of the pipeline methods *)

Section Conditions.

Context {F : Type} `{Scalar F} `{Random F} `{!Autograd F}.

(** [m] moves the world only along the relation [R]. *)
Definition wrespects {A : Type} (R : world F -> world F -> Prop)
    (m : stateR (world F) A) : Prop :=
  forall w, R w (snd (m w)).

(** The pipeline object with its module put in the given mode. *)
Definition in_mode (b : bool) (p : BasePipeline F) : BasePipeline F :=
  set_model (set_training b (model p)) p.

(** The pipeline object after optimizer steps: new optimizer state, new
    parameter tables, everything else as it was. *)
Definition retrained (o : optim) (ps : Params F) (p : BasePipeline F)
    : BasePipeline F :=
  set_optimizer o (set_model (set_parameters ps (model p)) p).


(** A store whose three arrays are as long as the split, with every row
    and column id inside the tables of the module [m]. *)
Definition store_fits (ds : Interactions F) (m : BaseModule F) : Prop :=
  Z.of_nat (length (split_row ds)) = Interactions_len ds
  /\ Z.of_nat (length (split_col ds)) = Interactions_len ds
  /\ Z.of_nat (length (split_val ds)) = Interactions_len ds
  /\ Forall (in_range (mod_n_users m)) (split_row ds)
  /\ Forall (in_range (mod_n_items m)) (split_col ds).

(** Two parameter sets of one shape: as many rows in each table, and the
    same row widths in the factor tables. *)
Definition same_shape (ps ps' : Params F) : Prop :=
  length (user_biases ps') = length (user_biases ps)
  /\ length (item_biases ps') = length (item_biases ps)
  /\ map length (user_embeddings ps') = map length (user_embeddings ps)
  /\ map length (item_embeddings ps') = map length (item_embeddings ps).

(** The optimizer updates the tables in place: it never resizes them. *)
Definition optimizer_keeps_shapes : Prop :=
  forall (o : optim) (ps : Params F) (gr : grads),
    same_shape ps (snd (optimizer_step o ps gr)).

(** Autograd finds gradients for every batch. *)
Definition backward_returns : Prop :=
  forall (m : BaseModule F) (g : rng) (rows cols : list Z) (vals : list F),
    exists gr, backward m g rows cols vals = Ok gr.

(** A loss function that returns a vector with one entry. *)
Definition loss_one_entry (lf : list F -> list F -> tensor F) : Prop :=
  forall preds vals, exists x, lf preds vals = TN [T0 x].


(** [randperm(n)] is a permutation of [0, ..., n - 1]. *)
Definition randperm_permutes : Prop :=
  forall (n : nat) (g : rng), fst (rng_randperm n g) ≡ₚ seq 0 n.

(** A pipeline on which [fit()] can run: the module is well shaped with
    factor rows of one width, the loss function returns a one-entry
    vector, and each of the two stores holds exactly one entry, with ids
    the module knows. *)
Definition ready (p : BasePipeline F) : Prop :=
  wf_module (model p)
  /\ (exists d, factor_width d (model p))
  /\ loss_one_entry (loss_function (model p))
  /\ store_fits (train_interactions p) (model p)
  /\ Interactions_len (train_interactions p) = 1
  /\ exists tds,
       test_interactions p = Some tds
       /\ store_fits tds (model p) /\ Interactions_len tds = 1.

(** The progress lines of a verbose run. *)
Fixpoint progress_rows (epochs : list Z) (tr te : list F)
    : list progress_row :=
  match epochs, tr, te with
  | e :: epochs', l :: tr', v :: te' =>
      (e, l, Some v) :: progress_rows epochs' tr' te'
  | _, _, _ => []
  end.

End Conditions.

(** ** Concrete scalars and collaborators, for running the program

    Integers stand for the doubles that represent them exactly; the
    generator is a counter, the loader's permutation is the identity and
    the optimizer moves every user bias by one. *)

Module Example.

#[export] Instance Z_Scalar : Scalar Z := {|
  fzero := 0; fone := 1;
  fadd := Z.add; fsub := Z.sub; fmul := Z.mul; fdiv := Z.div; fneg := Z.opp;
  feqb := Z.eqb; fltb := Z.ltb;
  fcast32 := fun x => x; of_int := fun z => z
|}.

#[export] Instance counter_Random : Random Z := {|
  rng := Z;
  manual_seed := fun seed => seed;
  rng_normal := fun g => (g, g + 1);
  rng_uniform := fun g => (g, g + 1);
  rng_randperm := fun n g => (seq 0 n, g + 1)
|}.

#[export] Instance unit_step_Autograd : Autograd Z := {|
  optim := nat;
  grads := unit;
  optimizer_init := fun _ _ _ => O;
  backward := fun _ _ _ _ _ => Ok tt;
  optimizer_step := fun o p _ =>
    (S o, {| user_biases := map (Z.add 1) (user_biases p);
             item_biases := item_biases p;
             user_embeddings := user_embeddings p;
             item_embeddings := item_embeddings p |})
|}.

(** The generator in the state numbered [z]. *)
Definition at_state (z : Z) : rng := z.

(** Three users, two items, three ratings. *)
Definition train3 : spmatrix Z :=
  {| sp_shape := (3, 2); sp_entries := [(0, 0, 5); (1, 1, 3); (2, 0, 1)] |}.

Definition test3 : spmatrix Z :=
  {| sp_shape := (3, 2); sp_entries := [(0, 1, 4); (2, 1, 2)] |}.

(** A test split that declares another shape. *)
Definition test_wide : spmatrix Z :=
  {| sp_shape := (4, 5); sp_entries := [(0, 1, 4)] |}.

(** One user, two items, one factor. *)
Definition tiny_module (user_bias : Z) (mode : bool) (p : Z) : BaseModule Z :=
  {| mod_n_users := 1; mod_n_items := 2;
     parameters := {| user_biases := [user_bias];
                      item_biases := [0; 0];
                      user_embeddings := [[1]];
                      item_embeddings := [[2]; [1]] |};
     dropout_p := p; training := mode; loss_function := mse_sum |}.

Definition pipeline3 (n : Z) (g : Z) : result (BasePipeline Z) * Z :=
  BasePipeline_init train3 (Some test3) BaseModule_cls 2 32 0 1 0 mse_sum n
    true (Some 7) g.

(** The sum of squared errors as a vector with one entry. *)
Definition sse_vector (preds vals : list Z) : tensor Z :=
  TN [T0 (tsum (flat_map (fun p => map (fun v => (p - v) * (p - v)) vals)
                         preds))].

(** One rating in each split. *)
Definition train1 : spmatrix Z :=
  {| sp_shape := (3, 2); sp_entries := [(1, 1, 3)] |}.

Definition test1 : spmatrix Z :=
  {| sp_shape := (3, 2); sp_entries := [(0, 1, 4)] |}.

(** A split without entries. *)
Definition empty32 : spmatrix Z := {| sp_shape := (3, 2); sp_entries := [] |}.

Definition pipeline1 (n : Z) (g : Z) : result (BasePipeline Z) * Z :=
  BasePipeline_init train1 (Some test1) BaseModule_cls 2 32 0 1 0 sse_vector n
    true (Some 7) g.


End Example.

(** ** Indexing *)

Section IndexingFacts.

Context {A : Type}.

Lemma tensor_getitem_nonneg (t : list A) (index : Z) (x : A) :
  0 <= index -> t !! Z.to_nat index = Some x -> tensor_getitem t index = Ok x.
Proof.
  intros Hpos Hx. unfold tensor_getitem.
  apply lookup_lt_Some in Hx as Hlt.
  assert (Hneg : (index <? 0) = false) by lia.
  assert (Hge : (Z.of_nat (length t) <=? index) = false) by lia.
  now rewrite !Hneg, Hge, Hx.
Qed.

Lemma tensor_getitem_negative (t : list A) (index : Z) :
  - Z.of_nat (length t) <= index < 0 ->
  tensor_getitem t index = tensor_getitem t (index + Z.of_nat (length t)).
Proof.
  intros Hr. unfold tensor_getitem.
  assert (Hneg : (index <? 0) = true) by lia.
  assert (Hneg' : (index + Z.of_nat (length t) <? 0) = false) by lia.
  now rewrite Hneg, !Hneg'.
Qed.

Lemma tensor_getitem_outside (t : list A) (index : Z) :
  index < - Z.of_nat (length t) \/ Z.of_nat (length t) <= index ->
  tensor_getitem t index = Raise IndexError.
Proof.
  intros Hr. unfold tensor_getitem.
  destruct (Z.ltb_spec index 0) as [Hneg|Hneg].
  - assert (Hlow : (index + Z.of_nat (length t) <? 0) = true) by lia.
    now rewrite Hlow.
  - assert (Hlow : (index <? 0) = false) by lia.
    assert (Hge : (Z.of_nat (length t) <=? index) = true) by lia.
    now rewrite Hlow, Hge.
Qed.

End IndexingFacts.

(** ** The interaction store *)

Section StoreFacts.

Context {F : Type} `{Scalar F} `{Random F} `{!Autograd F}.

Lemma Interactions_init_Some (tr te : spmatrix F) (flag : bool) :
  Interactions_init tr (Some te) flag =
  Ok {| train := flag;
        train_data := tocoo tr;
        test_data := tocoo te;
        n_users := fst (sp_shape tr);
        n_items := snd (sp_shape tr);
        train_row := row (tocoo tr);
        train_col := col (tocoo tr);
        train_val := map fcast32 (data (tocoo tr));
        test_row := row (tocoo te);
        test_col := col (tocoo te);
        test_val := map fcast32 (data (tocoo te)) |}.
Proof. reflexivity. Qed.

(** In a constructed store the three arrays of a split are as long as the
    split. *)
Lemma constructed_split_lengths (tr te : spmatrix F) (flag : bool)
    (s : Interactions F) :
  Interactions_init tr (Some te) flag = Ok s ->
  Z.of_nat (length (split_row s)) = Interactions_len s
  /\ Z.of_nat (length (split_col s)) = Interactions_len s
  /\ Z.of_nat (length (split_val s)) = Interactions_len s.
Proof.
  rewrite Interactions_init_Some. intros [= <-].
  unfold split_row, split_col, split_val, Interactions_len, nnz, tocoo.
  destruct flag; cbn; rewrite !length_map; auto.
Qed.

Lemma Interactions_getitem_split (s : Interactions F) (index : Z) :
  Interactions_getitem s index =
  (r ← tensor_getitem (split_row s) index;
   c ← tensor_getitem (split_col s) index;
   v ← tensor_getitem (split_val s) index;
   Ok ((r, c), v)).
Proof.
  unfold Interactions_getitem, split_row, split_col, split_val.
  now destruct (train s).
Qed.

(** C1 (the code at the failing input): with no test split,
    [Interactions.__init__] calls [tocoo] on [None] and raises
    [AttributeError]; the pipeline constructor, which builds the store
    first, raises it too and leaves the generator untouched. *)
Theorem construction_without_test_split_raises (tr : spmatrix F) :
  (forall flag, Interactions_init tr None flag = Raise AttributeError)
  /\ (forall cls n_factors0 batch_size0 dropout_p0 lr0 weight_decay0
        loss_function0 n_epochs0 verbose0 random_seed g,
        BasePipeline_init tr None cls n_factors0 batch_size0 dropout_p0 lr0
          weight_decay0 loss_function0 n_epochs0 verbose0 random_seed g
        = (Raise AttributeError, g)).
Proof. split; intros; reflexivity. Qed.

(** C3 (amended): with both splits given, construction succeeds whatever
    the two declared shapes are; the sizes of the store are those of the
    train split, and its length is the number of entries of the split it
    serves. *)
Theorem Interactions_init_accepts_any_shapes (tr te : spmatrix F)
    (flag : bool) :
  exists s, Interactions_init tr (Some te) flag = Ok s
    /\ n_users s = fst (sp_shape tr)
    /\ n_items s = snd (sp_shape tr)
    /\ Interactions_len s =
       Z.of_nat (length (sp_entries (if flag then tr else te))).
Proof.
  eexists. split; [apply Interactions_init_Some|].
  repeat split; cbn.
  unfold Interactions_len, nnz, tocoo; cbn.
  destruct flag; cbn; now rewrite length_map.
Qed.

(** C6 (amended): on a constructed split, [get] returns the triple at
    [index] for an index in [0, length); an index in [-length, 0) counts
    from the end, so it answers as [index + length] does; every other
    index raises [IndexError]. *)
Theorem Interactions_getitem_spec (tr te : spmatrix F) (flag : bool)
    (s : Interactions F) (index : Z) :
  Interactions_init tr (Some te) flag = Ok s ->
  (0 <= index < Interactions_len s ->
     exists r c v,
       split_row s !! Z.to_nat index = Some r
       /\ split_col s !! Z.to_nat index = Some c
       /\ split_val s !! Z.to_nat index = Some v
       /\ Interactions_getitem s index = Ok ((r, c), v))
  /\ (- Interactions_len s <= index < 0 ->
        Interactions_getitem s index =
        Interactions_getitem s (index + Interactions_len s))
  /\ (index < - Interactions_len s \/ Interactions_len s <= index ->
        Interactions_getitem s index = Raise IndexError).
Proof.
  intros Hinit.
  destruct (constructed_split_lengths _ _ _ _ Hinit) as (Hr & Hc & Hv).
  rewrite !Interactions_getitem_split.
  split; [|split].
  - intros Hin.
    destruct (lookup_lt_is_Some_2 (split_row s) (Z.to_nat index)) as [r Er]; [lia|].
    destruct (lookup_lt_is_Some_2 (split_col s) (Z.to_nat index)) as [c Ec]; [lia|].
    destruct (lookup_lt_is_Some_2 (split_val s) (Z.to_nat index)) as [v Ev]; [lia|].
    exists r, c, v. repeat split; try assumption.
    rewrite (tensor_getitem_nonneg _ _ _ (proj1 Hin) Er).
    rewrite (tensor_getitem_nonneg _ _ _ (proj1 Hin) Ec).
    rewrite (tensor_getitem_nonneg _ _ _ (proj1 Hin) Ev).
    reflexivity.
  - intros Hneg.
    rewrite (tensor_getitem_negative (split_row s)) by lia.
    rewrite (tensor_getitem_negative (split_col s)) by lia.
    rewrite (tensor_getitem_negative (split_val s)) by lia.
    now rewrite Hr, Hc, Hv.
  - intros Hout.
    rewrite (tensor_getitem_outside (split_row s)) by lia.
    reflexivity.
Qed.

End StoreFacts.

(** ** Tensor lemmas *)

Section TensorFacts.

Context {F : Type} `{Scalar F} `{Random F}.

Lemma embedding_in_range {A : Type} (dflt : A) (weight : list A)
    (idx : list Z) :
  Forall (in_range (Z.of_nat (length weight))) idx ->
  embedding weight idx = Ok (gather dflt weight idx).
Proof.
  unfold embedding, gather.
  induction 1 as [|i idx [Hlo Hhi] _ IH]; [reflexivity|].
  cbn [mapR map].
  assert (Hneg : (i <? 0) = false) by lia.
  assert (Hge : (Z.of_nat (length weight) <=? i) = false) by lia.
  rewrite Hneg, Hge. cbn [orb].
  destruct (lookup_lt_is_Some_2 weight (Z.to_nat i)) as [r Er]; [lia|].
  rewrite Er, IH. reflexivity.
Qed.

Lemma length_gather {A : Type} (dflt : A) (weight : list A) (idx : list Z) :
  length (gather dflt weight idx) = length idx.
Proof. apply length_map. Qed.

Lemma embedding_single {A : Type} (weight : list A) (i : Z) (r : A) :
  0 <= i -> weight !! Z.to_nat i = Some r -> embedding weight [i] = Ok [r].
Proof.
  intros Hi Hr. unfold embedding. cbn [mapR].
  apply lookup_lt_Some in Hr as Hlt.
  assert (Hneg : (i <? 0) = false) by lia.
  assert (Hge : (Z.of_nat (length weight) <=? i) = false) by lia.
  now rewrite Hneg, Hge, Hr.
Qed.

Lemma embedding_cases {A : Type} (weight : list A) (idx : list Z) :
  (exists rows, embedding weight idx = Ok rows)
  \/ embedding weight idx = Raise IndexError.
Proof.
  unfold embedding. induction idx as [|i idx IH]; cbn [mapR]; [eauto|].
  destruct ((i <? 0) || (Z.of_nat (length weight) <=? i)); [now right|].
  destruct (weight !! Z.to_nat i) as [r|]; [|now right].
  destruct IH as [[rows ->] | ->]; [left; eexists; reflexivity | now right].
Qed.

Lemma embedding_out_of_range {A : Type} (weight : list A) (idx : list Z) :
  Exists (fun i => ~ in_range (Z.of_nat (length weight)) i) idx ->
  embedding weight idx = Raise IndexError.
Proof.
  unfold embedding, in_range.
  induction idx as [|i idx IH]; intros HE; [inversion HE|].
  cbn [mapR].
  destruct (Z.ltb_spec i 0) as [Hneg|Hneg]; [reflexivity|].
  destruct (Z.leb_spec (Z.of_nat (length weight)) i) as [Hge|Hlt];
    [reflexivity|]. cbn [orb].
  destruct (weight !! Z.to_nat i) as [r|]; [|reflexivity].
  rewrite IH; [reflexivity|].
  inversion HE as [? ? Hbad | ? ? Hrest]; subst; [lia | assumption].
Qed.

(** The in-place additions of the two models against the broadcasting
    rule: a vector goes into a [P x 1] column exactly when it has one entry,
    and a column never goes into a vector. *)
Lemma inplace_column_vector (P Q : nat) :
  inplace_ok [P; 1%nat] [Q] = bool_decide (Q = 1%nat).
Proof.
  unfold inplace_ok, broadcast_shapes.
  destruct Q as [|[|Q]]; cbn; repeat case_bool_decide;
    congruence || reflexivity.
Qed.


Lemma iadd_column_single (col : list F) (x : F) :
  iadd_column col [x] = Ok (map (fun p => fadd p x) col).
Proof. unfold iadd_column. now rewrite inplace_column_vector. Qed.

Lemma iadd_column_raises (col v : list F) :
  length v <> 1%nat -> iadd_column col v = Raise RuntimeError.
Proof.
  intros Hne. unfold iadd_column. rewrite inplace_column_vector.
  now rewrite bool_decide_eq_false_2.
Qed.


Lemma mapR_length {A B : Type} (f : A -> result B) (l : list A) (r : list B) :
  mapR f l = Ok r -> length r = length l.
Proof.
  revert r. induction l as [|x l IH]; intros r; cbn [mapR].
  - now intros [= <-].
  - destruct (f x) as [y|e]; [|discriminate]. cbn.
    destruct (mapR f l) as [ys|e]; [|discriminate]. cbn.
    intros [= <-]. cbn. now rewrite (IH ys).
Qed.

Lemma mapR_error {A B : Type} (f : A -> result B) (l : list A) (e e0 : exn) :
  (forall x e', f x = Raise e' -> e' = e0) ->
  mapR f l = Raise e -> e = e0.
Proof.
  intros Hf. induction l as [|x l IH]; cbn [mapR]; [discriminate|].
  destruct (f x) as [y|e'] eqn:Ex; cbn.
  - destruct (mapR f l) as [ys|e']; cbn; [discriminate|].
    intros [= <-]. now apply IH.
  - intros [= <-]. now apply (Hf x).
Qed.

Lemma bpairs_same_length {A B : Type} (a : list A) (b : list B) :
  length a = length b -> bpairs a b = Ok (zip a b).
Proof. intros E. unfold bpairs. now rewrite E, Nat.eqb_refl. Qed.

Lemma bpairs_error {A B : Type} (a : list A) (b : list B) (e : exn) :
  bpairs a b = Raise e -> e = RuntimeError.
Proof.
  unfold bpairs. destruct (Nat.eqb (length a) (length b)); [discriminate|].
  destruct a as [|x [|x' a]], b as [|y [|y' b]]; congruence.
Qed.

(** The broadcast of two lengths is 1 only when both are 1. *)
Lemma bpairs_length_one {A B : Type} (a : list A) (b : list B)
    (ps : list (A * B)) :
  bpairs a b = Ok ps -> length ps = 1%nat ->
  length a = 1%nat /\ length b = 1%nat.
Proof.
  unfold bpairs. destruct (Nat.eqb_spec (length a) (length b)) as [E|E].
  - intros [= <-]. rewrite length_zip_with. lia.
  - destruct a as [|x [|x' a]], b as [|y [|y' b]]; cbn in *;
      try discriminate; try lia;
      intros [= <-]; cbn; rewrite ?length_map; cbn; lia.
Qed.

Lemma map_zip (f : F -> F -> F) (a b : list F) :
  map (fun p => f (fst p) (snd p)) (zip a b) = zip_with f a b.
Proof.
  revert b. induction a as [|x a IH]; intros [|y b]; cbn; try reflexivity.
  now rewrite IH.
Qed.

Lemma bzip_same_length (f : F -> F -> F) (a b : list F) :
  length a = length b -> bzip f a b = Ok (zip_with f a b).
Proof.
  intros E. unfold bzip. rewrite (bpairs_same_length _ _ E). cbn.
  now rewrite map_zip.
Qed.

Lemma bzip_error (f : F -> F -> F) (a b : list F) (e : exn) :
  bzip f a b = Raise e -> e = RuntimeError.
Proof.
  unfold bzip. destruct (bpairs a b) as [ps|e'] eqn:E; cbn; [discriminate|].
  intros [= <-]. exact (bpairs_error _ _ _ E).
Qed.

Lemma bzip2_error (f : F -> F -> F) (a b : list (list F)) (e : exn) :
  bzip2 f a b = Raise e -> e = RuntimeError.
Proof.
  unfold bzip2. destruct (bpairs a b) as [ps|e'] eqn:E; cbn.
  - apply mapR_error. intros p e'. apply bzip_error.
  - intros [= <-]. exact (bpairs_error _ _ _ E).
Qed.

(** A product of two matrices has one row only when both have one row. *)
Lemma bzip2_one_row (f : F -> F -> F) (a b r : list (list F)) :
  bzip2 f a b = Ok r -> length r = 1%nat ->
  length a = 1%nat /\ length b = 1%nat.
Proof.
  unfold bzip2. destruct (bpairs a b) as [ps|e'] eqn:E; cbn; [|discriminate].
  intros Hr Hl. apply mapR_length in Hr.
  apply (bpairs_length_one _ _ _ E). congruence.
Qed.

Lemma bzip2_single (f : F -> F -> F) (a b : list F) :
  length a = length b -> bzip2 f [a] [b] = Ok [zip_with f a b].
Proof.
  intros E. unfold bzip2. cbn. now rewrite (bzip_same_length _ _ _ E).
Qed.

Lemma length_draw_row (draw : rng -> F * rng) (n : nat) (g : rng) :
  length (fst (draw_row draw n g)) = n.
Proof.
  revert g. induction n as [|n IH]; intros g; cbn; [reflexivity|].
  destruct (draw g) as [x g1]. specialize (IH g1).
  destruct (draw_row draw n g1) as [xs g2]. cbn in *. now rewrite IH.
Qed.

Lemma draw_like_shape (draw : rng -> F * rng) (x : list (list F)) (g : rng) :
  map length (fst (draw_like draw x g)) = map length x.
Proof.
  revert g. induction x as [|r x IH]; intros g; cbn; [reflexivity|].
  pose proof (length_draw_row draw (length r) g) as Hr.
  destruct (draw_row draw (length r) g) as [d g1]. specialize (IH g1).
  destruct (draw_like draw x g1) as [ds g2]. cbn in *. now rewrite Hr, IH.
Qed.

Lemma hadamard_shape (x noise : list (list F)) :
  map length noise = map length x ->
  map length (hadamard x noise) = map length x.
Proof.
  unfold hadamard. revert noise.
  induction x as [|r x IH]; intros [|n noise]; cbn; try discriminate;
    [reflexivity|].
  intros [= Hn Hrest]. rewrite length_zip_with, Hn, (IH _ Hrest).
  f_equal. lia.
Qed.

(** Dropout keeps the shape of its input. *)
Lemma dropout_shape (mode : bool) (p : F) (x : list (list F)) (g : rng) :
  map length (fst (dropout mode p x g)) = map length x.
Proof.
  unfold dropout. destruct (mode && fltb fzero p); [|reflexivity].
  destruct (feqb p fone); cbn [fst].
  - apply hadamard_shape. unfold zeros_like.
    rewrite <- list_fmap_compose. apply list_fmap_ext.
    intros i r _. cbn. apply length_map.
  - pose proof (draw_like_shape rng_uniform x g) as Hs.
    destruct (draw_like rng_uniform x g) as [u g']. cbn [fst] in *.
    apply hadamard_shape. rewrite <- Hs. unfold dropout_noise.
    rewrite <- list_fmap_compose. apply list_fmap_ext.
    intros i r _. cbn. apply length_map.
Qed.

Lemma length_dropout (mode : bool) (p : F) (x : list (list F)) (g : rng) :
  length (fst (dropout mode p x g)) = length x.
Proof.
  pose proof (dropout_shape mode p x g) as Hs.
  apply (f_equal length) in Hs. now rewrite !length_map in Hs.
Qed.

(** Dropout of one row is one row of the same width. *)
Lemma dropout_single (mode : bool) (p : F) (r : list F) (g : rng) :
  exists d g', dropout mode p [r] g = ([d], g') /\ length d = length r.
Proof.
  pose proof (dropout_shape mode p [r] g) as Hs.
  destruct (dropout mode p [r] g) as [[|d [|d' ds]] g']; cbn in Hs;
    try discriminate.
  injection Hs as Hd. eauto.
Qed.

(** At evaluation time dropout is the identity and draws nothing. *)
Lemma dropout_eval (p : F) (x : list (list F)) (g : rng) :
  dropout false p x g = (x, g).
Proof. reflexivity. Qed.

Lemma dropout_off (mode : bool) (p : F) (x : list (list F)) (g : rng) :
  mode && fltb fzero p = false -> dropout mode p x g = (x, g).
Proof. intros Hoff. unfold dropout. now rewrite Hoff. Qed.

(** In training mode with [p = 1] the input is multiplied by zero and
    nothing is drawn. *)
Lemma dropout_one_single (r : list F) (g : rng) :
  feqb (fone : F) fone = true -> fltb (fzero : F) fone = true ->
  dropout true fone [r] g = ([map (fun x => fmul x fzero) r], g).
Proof.
  intros He Hl. unfold dropout. cbn [andb]. rewrite Hl, He.
  unfold hadamard, zeros_like. cbn. f_equal. f_equal.
  induction r as [|x r IH]; cbn; [reflexivity|]. now rewrite IH.
Qed.

End TensorFacts.

(** ** Stepping through a computation *)

Section StepFacts.

Context {S A B : Type}.

Lemma bind_lift_Ok (a : A) (k : A -> stateR S B) (s : S) :
  (lift_result (Ok a) ≫= k) s = k a s.
Proof. reflexivity. Qed.

Lemma bind_lift_Raise (e : exn) (k : A -> stateR S B) (s : S) :
  (lift_result (Raise e) ≫= k) s = (Raise e, s).
Proof. reflexivity. Qed.

Lemma bind_total (f : S -> A * S) (k : A -> stateR S B) (s : S) :
  (total f ≫= k) s = k (fst (f s)) (snd (f s)).
Proof. unfold mbind, stateR_bind, total. now destruct (f s). Qed.

Lemma bind_run (m : stateR S A) (k : A -> stateR S B) (s : S) :
  (m ≫= k) s = match m s with
               | (Ok a, s') => k a s'
               | (Raise e, s') => (Raise e, s')
               end.
Proof. reflexivity. Qed.

End StepFacts.

(** ** The prediction models *)

Section ModuleFacts.

Context {F : Type} `{Scalar F} `{Random F}.

Lemma length_draw_matrix (draw : rng -> F * rng) (rows cols : nat) (g : rng) :
  length (fst (draw_matrix draw rows cols g)) = rows.
Proof.
  revert g. induction rows as [|rows IH]; intros g; cbn; [reflexivity|].
  destruct (draw_row draw cols g) as [r g1].
  specialize (IH g1). destruct (draw_matrix draw rows cols g1) as [rs g2].
  cbn in *. now rewrite IH.
Qed.

Lemma draw_matrix_width (draw : rng -> F * rng) (rows cols : nat) (g : rng) :
  Forall (fun r => length r = cols) (fst (draw_matrix draw rows cols g)).
Proof.
  revert g. induction rows as [|rows IH]; intros g; cbn; [constructor|].
  pose proof (length_draw_row draw cols g) as Hr.
  destruct (draw_row draw cols g) as [r g1].
  specialize (IH g1). destruct (draw_matrix draw rows cols g1) as [rs g2].
  cbn in *. now constructor.
Qed.

Lemma Embedding_init_Ok (n d : Z) (g g' : rng) (w : list (list F)) :
  Embedding_init n d g = (Ok w, g') -> Z.of_nat (length w) = n.
Proof.
  unfold Embedding_init.
  destruct (Z.ltb_spec n 0) as [Hn|Hn]; [discriminate|].
  destruct (d <? 0); [discriminate|]. cbn [orb]. unfold total.
  pose proof (length_draw_matrix rng_normal (Z.to_nat n) (Z.to_nat d) g) as Hl.
  destruct (draw_matrix rng_normal (Z.to_nat n) (Z.to_nat d) g) as [w0 g0].
  intros [= <- <-]. cbn in Hl. lia.
Qed.


(** A constructed module is in training mode, keeps the dropout
    probability it was given, and has one row per id in each table. *)
Lemma BaseModule_init_Ok (n_users0 n_items0 n_factors0 : Z) (dropout_p0 : F)
    (loss_function0 : list F -> list F -> tensor F) (g g' : rng)
    (m : BaseModule F) :
  BaseModule_init n_users0 n_items0 n_factors0 dropout_p0 loss_function0 g
  = (Ok m, g') ->
  wf_module m /\ training m = true /\ dropout_p m = dropout_p0
  /\ mod_n_users m = n_users0 /\ mod_n_items m = n_items0.
Proof.
  unfold BaseModule_init. rewrite bind_run.
  destruct (Embedding_init n_users0 1 g) as [[ub|e] g1] eqn:E1; [|discriminate].
  rewrite bind_run.
  destruct (Embedding_init n_items0 1 g1) as [[ib|e] g2] eqn:E2; [|discriminate].
  rewrite bind_run.
  destruct (Embedding_init n_users0 n_factors0 g2) as [[ue|e] g3] eqn:E3;
    [|discriminate].
  rewrite bind_run.
  destruct (Embedding_init n_items0 n_factors0 g3) as [[ie|e] g4] eqn:E4;
    [|discriminate].
  destruct (fltb dropout_p0 fzero || fltb fone dropout_p0); [discriminate|].
  intros [= <- <-]. unfold wf_module, column. cbn. rewrite !length_map.
  apply Embedding_init_Ok in E1, E2, E3, E4. auto 10.
Qed.


(** The four lookups of one in-range pair. *)
Lemma lookups_in_range (m : BaseModule F) (u i : Z) :
  wf_module m ->
  in_range (mod_n_users m) u -> in_range (mod_n_items m) i ->
  exists ub ib uf itf,
    user_biases (parameters m) !! Z.to_nat u = Some ub
    /\ item_biases (parameters m) !! Z.to_nat i = Some ib
    /\ user_embeddings (parameters m) !! Z.to_nat u = Some uf
    /\ item_embeddings (parameters m) !! Z.to_nat i = Some itf.
Proof.
  intros (Hub & Hue & Hib & Hie) [Hu0 Hu1] [Hi0 Hi1].
  destruct (lookup_lt_is_Some_2 (user_biases (parameters m)) (Z.to_nat u))
    as [ub Eub]; [lia|].
  destruct (lookup_lt_is_Some_2 (item_biases (parameters m)) (Z.to_nat i))
    as [ib Eib]; [lia|].
  destruct (lookup_lt_is_Some_2 (user_embeddings (parameters m)) (Z.to_nat u))
    as [uf Euf]; [lia|].
  destruct (lookup_lt_is_Some_2 (item_embeddings (parameters m)) (Z.to_nat i))
    as [itf Eif]; [lia|].
  eauto 10.
Qed.

(** [forward] on a batch of one pair, step by step: the four lookups, the
    two dropouts, the product of the two rows, its sum, and the in-place
    add of that one sum into the one-row column of biases. *)
Lemma forward_single (m : BaseModule F) (u i : Z) (g g1 g2 : rng)
    (ub ib : F) (uf itf d e : list F) :
  0 <= u -> 0 <= i ->
  user_biases (parameters m) !! Z.to_nat u = Some ub ->
  item_biases (parameters m) !! Z.to_nat i = Some ib ->
  user_embeddings (parameters m) !! Z.to_nat u = Some uf ->
  item_embeddings (parameters m) !! Z.to_nat i = Some itf ->
  dropout (training m) (dropout_p m) [uf] g = ([d], g1) ->
  dropout (training m) (dropout_p m) [itf] g1 = ([e], g2) ->
  length d = length e ->
  forward m [u] [i] g =
  (Ok [fadd (fadd ub ib) (fold_left fadd (zip_with fmul d e) fzero)], g2).
Proof.
  intros Hu Hi Eub Eib Euf Eif Ed Ee Hlen. unfold forward. cbv zeta.
  rewrite (embedding_single _ _ _ Hu Euf), bind_lift_Ok.
  rewrite (embedding_single _ _ _ Hi Eif), bind_lift_Ok.
  rewrite (embedding_single _ _ _ Hu Eub), bind_lift_Ok.
  rewrite (embedding_single _ _ _ Hi Eib), bind_lift_Ok.
  rewrite (bzip_same_length fadd [ub] [ib] eq_refl), bind_lift_Ok.
  rewrite bind_total, Ed. cbn [fst snd].
  rewrite bind_total, Ee. cbn [fst snd].
  unfold tmul2. rewrite (bzip2_single fmul d e Hlen), bind_lift_Ok.
  cbn [sum1 map zip_with]. rewrite iadd_column_single. reflexivity.
Qed.

(** C4 (the code at the failing input, and what it does elsewhere): on
    in-range ids [forward] raises [RuntimeError] for every batch that is not
    exactly one pair, because the vector of row sums cannot be added in
    place to the column of biases; on a batch of one pair it returns
    [user_bias[u] + item_bias[i] + sum(d * e)], where [d] and [e] are the
    dropouts of [user_factors[u]] and [item_factors[i]], which in evaluation
    mode are these two rows themselves. *)
Theorem forward_one_pair_only (m : BaseModule F) (g : rng) :
  wf_module m ->
  (forall users items,
     Forall (in_range (mod_n_users m)) users ->
     Forall (in_range (mod_n_items m)) items ->
     length users <> 1%nat \/ length items <> 1%nat ->
     fst (forward m users items g) = Raise RuntimeError)
  /\ (forall u i,
        in_range (mod_n_users m) u -> in_range (mod_n_items m) i ->
        exists ub ib uf itf d e g1 g2,
          user_biases (parameters m) !! Z.to_nat u = Some ub
          /\ item_biases (parameters m) !! Z.to_nat i = Some ib
          /\ user_embeddings (parameters m) !! Z.to_nat u = Some uf
          /\ item_embeddings (parameters m) !! Z.to_nat i = Some itf
          /\ dropout (training m) (dropout_p m) [uf] g = ([d], g1)
          /\ dropout (training m) (dropout_p m) [itf] g1 = ([e], g2)
          /\ (length uf = length itf ->
              forward m [u] [i] g =
              (Ok [fadd (fadd ub ib)
                        (fold_left fadd (zip_with fmul d e) fzero)], g2))
          /\ (training m = false -> d = uf /\ e = itf /\ g2 = g)).
Proof.
  intros Hwf. split.
  - intros users items Hu Hi Hne.
    destruct Hwf as (Hub & Hue & Hib & Hie).
    unfold forward. cbv zeta.
    rewrite (embedding_in_range [] (user_embeddings (parameters m)))
      by now rewrite Hue.
    rewrite bind_lift_Ok.
    rewrite (embedding_in_range [] (item_embeddings (parameters m)))
      by now rewrite Hie.
    rewrite bind_lift_Ok.
    rewrite (embedding_in_range fzero (user_biases (parameters m)))
      by now rewrite Hub.
    rewrite bind_lift_Ok.
    rewrite (embedding_in_range fzero (item_biases (parameters m)))
      by now rewrite Hib.
    rewrite bind_lift_Ok.
    destruct (bzip fadd _ _) as [preds|e0] eqn:Epreds.
    2:{ rewrite bind_lift_Raise. cbn. f_equal. exact (bzip_error _ _ _ _ Epreds). }
    rewrite bind_lift_Ok, !bind_total.
    set (du := dropout (training m) (dropout_p m)
                 (gather [] (user_embeddings (parameters m)) users) g).
    set (di := dropout (training m) (dropout_p m)
                 (gather [] (item_embeddings (parameters m)) items) (snd du)).
    destruct (tmul2 (fst du) (fst di)) as [prod|e0] eqn:Eprod.
    2:{ rewrite bind_lift_Raise. cbn. f_equal.
        exact (bzip2_error _ _ _ _ Eprod). }
    rewrite bind_lift_Ok. unfold lift_result. cbn [fst].
    apply iadd_column_raises. unfold sum1. rewrite length_map.
    intros Hone.
    destruct (bzip2_one_row _ _ _ _ Eprod Hone) as [H1 H2].
    unfold du in H1. unfold di in H2.
    rewrite length_dropout, length_gather in H1, H2. lia.
  - intros u i Hu Hi.
    destruct (lookups_in_range m u i Hwf Hu Hi)
      as (ub & ib & uf & itf & Eub & Eib & Euf & Eif).
    destruct (dropout_single (training m) (dropout_p m) uf g)
      as (d & g1 & Ed & Hd).
    destruct (dropout_single (training m) (dropout_p m) itf g1)
      as (e & g2 & Ee & He).
    exists ub, ib, uf, itf, d, e, g1, g2.
    repeat (split; [assumption|]). split.
    + intros Hlen.
      apply (forward_single m u i g g1 g2 ub ib uf itf d e);
        try assumption; try apply Hu; try apply Hi. congruence.
    + intros Heval. rewrite Heval, dropout_eval in Ed, Ee.
      injection Ed as <- <-. injection Ee as <- <-. auto.
Qed.

Lemma fold_zeros (l : list F) (acc : F) :
  (forall a b : F, is_zero a -> is_zero b -> is_zero (fadd a b)) ->
  is_zero acc -> Forall is_zero l -> is_zero (fold_left fadd l acc).
Proof.
  intros Hadd Hacc Hl. revert acc Hacc.
  induction Hl as [|x l Hx _ IH]; intros acc Hacc; cbn; [assumption|].
  apply IH. now apply Hadd.
Qed.

Lemma products_of_zeros (a b : list F) :
  (forall x y : F, is_zero x -> is_zero y -> is_zero (fmul x y)) ->
  Forall finite a -> Forall finite b ->
  Forall is_zero (zip_with fmul (map (fun x => fmul x fzero) a)
                                (map (fun x => fmul x fzero) b)).
Proof.
  intros Hmul Ha. revert b.
  induction Ha as [|x a Hx _ IH]; intros b Hb; cbn; [constructor|].
  destruct Hb as [|y b Hy Hb]; cbn; constructor; auto.
Qed.

(** C7 (amended): in training mode with [dropout_p = 1], on a batch of one
    in-range pair with factor rows of one width, both dropouts multiply
    their row by zero and draw nothing; for finite factor values the
    factor-dot term is then a zero, and the score equals
    [user_bias[u] + item_bias[i]] as doubles compare, provided this sum is
    not a NaN. *)
Theorem forward_dropout_one_training (m : BaseModule F) (u i : Z) (g : rng) :
  zero_one_facts ->
  wf_module m ->
  training m = true ->
  dropout_p m = fone ->
  in_range (mod_n_users m) u ->
  in_range (mod_n_items m) i ->
  exists ub ib uf itf,
    user_biases (parameters m) !! Z.to_nat u = Some ub
    /\ item_biases (parameters m) !! Z.to_nat i = Some ib
    /\ user_embeddings (parameters m) !! Z.to_nat u = Some uf
    /\ item_embeddings (parameters m) !! Z.to_nat i = Some itf
    /\ (length uf = length itf ->
        let dot_term :=
          fold_left fadd
            (zip_with fmul (map (fun x => fmul x fzero) uf)
                           (map (fun x => fmul x fzero) itf)) fzero in
        forward m [u] [i] g = (Ok [fadd (fadd ub ib) dot_term], g)
        /\ (Forall finite uf -> Forall finite itf ->
            is_zero dot_term
            /\ (not_nan (fadd ub ib) ->
                feqb (fadd (fadd ub ib) dot_term) (fadd ub ib) = true))).
Proof.
  intros (H11 & H01 & Hz & Hmul & Hadd & Hneutral) Hwf Htrain Hp Hu Hi.
  destruct (lookups_in_range m u i Hwf Hu Hi)
    as (ub & ib & uf & itf & Eub & Eib & Euf & Eif).
  exists ub, ib, uf, itf. repeat (split; [assumption|]).
  intros Hlen dot_term. split.
  - apply (forward_single m u i g g g ub ib uf itf); try assumption;
      try apply Hu; try apply Hi.
    + rewrite Htrain, Hp. now apply dropout_one_single.
    + rewrite Htrain, Hp. now apply dropout_one_single.
    + now rewrite !length_map.
  - intros Fu Fi.
    assert (Hdot : is_zero dot_term).
    { apply fold_zeros; [assumption | assumption |].
      now apply products_of_zeros. }
    split; [exact Hdot|]. intros Hnan. now apply Hneutral.
Qed.


End ModuleFacts.

(** ** Frame reasoning for the methods of the pipeline *)

Section FrameFacts.

Context {F : Type} `{Scalar F} `{Random F} `{!Autograd F}.

Variable R : BasePipeline F -> BasePipeline F -> Prop.
Hypothesis R_refl : forall p, R p p.
Hypothesis R_trans : forall p q r, R p q -> R q r -> R p r.

Lemma respects_mret {A : Type} (a : A) : respects R (mret a).
Proof. intros w. apply R_refl. Qed.

Lemma respects_raise {A : Type} (e : exn) : respects R (raise e : stateR _ A).
Proof. intros w. apply R_refl. Qed.

Lemma respects_lift_result {A : Type} (r : result A) :
  respects R (lift_result r).
Proof. intros w. apply R_refl. Qed.

Lemma respects_get_self : respects R get_self.
Proof. intros w. apply R_refl. Qed.

Lemma respects_get_gen : respects R get_gen.
Proof. intros w. apply R_refl. Qed.

Lemma respects_with_gen {A : Type} (m : stateR rng A) :
  respects R (with_gen m).
Proof.
  intros w. unfold with_gen. destruct (m (gen w)) as [r g']. apply R_refl.
Qed.

Lemma respects_print (r : progress_row) : respects R (print r).
Proof. intros w. apply R_refl. Qed.

Lemma respects_modify_self (f : BasePipeline F -> BasePipeline F) :
  (forall p, R p (f p)) -> respects R (modify_self f).
Proof. intros Hf w. apply Hf. Qed.

Lemma respects_bind {A B : Type} (m : stateR (world F) A)
    (k : A -> stateR (world F) B) :
  respects R m -> (forall a, respects R (k a)) -> respects R (m ≫= k).
Proof.
  intros Hm Hk w. rewrite bind_run.
  specialize (Hm w). destruct (m w) as [[a|e] w1]; cbn in *; [|assumption].
  eapply R_trans; [exact Hm|]. apply Hk.
Qed.

Lemma respects_for_batches (body : list nat -> F -> stateR (world F) F)
    (batches : list (list nat)) (acc : F) :
  (forall b x, respects R (body b x)) ->
  respects R (for_batches body batches acc).
Proof.
  intros Hbody. revert acc.
  induction batches as [|b rest IH]; intros acc; cbn [for_batches].
  - apply respects_mret.
  - apply respects_bind; [apply Hbody|]. intros a. apply IH.
Qed.

Lemma respects_DataLoader_indices (ds : Interactions F) :
  respects R (DataLoader_indices ds).
Proof.
  unfold DataLoader_indices.
  apply respects_bind; [apply respects_with_gen|].
  intros perm. apply respects_mret.
Qed.

Lemma respects_validation_batch (ds : Interactions F) (idx : list nat)
    (acc : F) :
  respects R (validation_batch ds idx acc).
Proof.
  unfold validation_batch.
  apply respects_bind; [apply respects_get_self|]. intros p.
  apply respects_bind; [apply respects_lift_result|]. intros [[row0 col0] val0].
  apply respects_bind; [apply respects_with_gen|]. intros preds.
  apply respects_bind; [apply respects_lift_result|]. intros x.
  apply respects_lift_result.
Qed.

(** Validation moves the object only by switching the module to
    evaluation mode. *)
Lemma respects__validation_loss :
  (forall p, R p (set_model (set_training false (model p)) p)) ->
  respects R _validation_loss.
Proof.
  intros Hmode. unfold _validation_loss.
  apply respects_bind; [now apply respects_modify_self|]. intros _.
  apply respects_bind; [apply respects_get_self|]. intros p.
  destruct (test_interactions p) as [ds|]; [|apply respects_raise].
  apply respects_bind; [apply respects_DataLoader_indices|]. intros batches.
  apply respects_bind.
  - apply respects_for_batches. intros b x. apply respects_validation_batch.
  - intros total_loss. apply respects_mret.
Qed.

Lemma respects_fit_batch (idx : list nat) (acc : F) :
  (forall p o ps,
     R p (set_optimizer o (set_model (set_parameters ps (model p)) p))) ->
  respects R (fit_batch idx acc).
Proof.
  intros Hstep. unfold fit_batch.
  apply respects_bind; [apply respects_get_self|]. intros p.
  apply respects_bind; [apply respects_lift_result|]. intros [[row0 col0] val0].
  apply respects_bind; [apply respects_get_gen|]. intros g.
  apply respects_bind; [apply respects_with_gen|]. intros preds.
  apply respects_bind; [apply respects_lift_result|]. intros gr.
  destruct (optimizer_step _ _ _) as [o' ps'].
  apply respects_bind; [apply respects_modify_self; intros q; apply Hstep|].
  intros _.
  apply respects_bind; [apply respects_lift_result|]. intros x.
  apply respects_lift_result.
Qed.

(** Training moves the object only by switching the module to training
    mode and by optimizer steps. *)
Lemma respects__fit_epoch :
  (forall p, R p (set_model (set_training true (model p)) p)) ->
  (forall p o ps,
     R p (set_optimizer o (set_model (set_parameters ps (model p)) p))) ->
  respects R _fit_epoch.
Proof.
  intros Hmode Hstep. unfold _fit_epoch.
  apply respects_bind; [now apply respects_modify_self|]. intros _.
  apply respects_bind; [apply respects_get_self|]. intros p.
  apply respects_bind; [apply respects_DataLoader_indices|]. intros batches.
  apply respects_bind.
  - apply respects_for_batches. intros b x. now apply respects_fit_batch.
  - intros total_loss. apply respects_mret.
Qed.

End FrameFacts.

(** ** Validation *)

Section ValidationFacts.

Context {F : Type} `{Scalar F} `{Random F} `{!Autograd F}.

(** C8: one validation pass leaves the four parameter tables as they were,
    whether the pass completes or raises. *)
Theorem _validation_loss_keeps_parameters (w : world F) :
  let before := parameters (model (self w)) in
  let after := parameters (model (self (snd (_validation_loss w)))) in
  user_biases after = user_biases before
  /\ item_biases after = item_biases before
  /\ user_embeddings after = user_embeddings before
  /\ item_embeddings after = item_embeddings before.
Proof.
  intros before after.
  assert (Hsame : after = before).
  { unfold after, before.
    apply (respects__validation_loss same_parameters).
    - intros p. reflexivity.
    - intros p q r Hpq Hqr. unfold same_parameters in *. congruence.
    - intros p. reflexivity. }
  now rewrite Hsame.
Qed.

End ValidationFacts.

(** ** The epoch loop *)

Section FitFacts.

Context {F : Type} `{Scalar F} `{Random F} `{!Autograd F}.

Lemma bind_modify_self {B : Type} (f : BasePipeline F -> BasePipeline F)
    (k : unit -> stateR (world F) B) (w : world F) :
  (modify_self f ≫= k) w =
  k tt {| self := f (self w); gen := gen w; stdout := stdout w |}.
Proof. reflexivity. Qed.

Lemma bind_get_self {B : Type} (k : BasePipeline F -> stateR (world F) B)
    (w : world F) :
  (get_self ≫= k) w = k (self w) w.
Proof. reflexivity. Qed.

Lemma dd_get_append_eq (k : string) (v : pyval F)
    (d : gmap string (list (pyval F))) :
  dd_get k (dd_append k v d) = dd_get k d ++ [v].
Proof. unfold dd_get at 1, dd_append. now rewrite lookup_insert_eq. Qed.

Lemma dd_get_append_ne (k k' : string) (v : pyval F)
    (d : gmap string (list (pyval F))) :
  k' <> k -> dd_get k (dd_append k' v d) = dd_get k d.
Proof.
  intros Hne. unfold dd_get at 1, dd_append.
  now rewrite lookup_insert_ne.
Qed.

Lemma same_bookkeeping_refl (p : BasePipeline F) : same_bookkeeping p p.
Proof. now repeat split. Qed.

Lemma same_bookkeeping_trans (p q r : BasePipeline F) :
  same_bookkeeping p q -> same_bookkeeping q r -> same_bookkeeping p r.
Proof.
  intros (A1 & A2 & A3 & A4) (B1 & B2 & B3 & B4).
  repeat split; congruence.
Qed.

Lemma _fit_epoch_bookkeeping (w : world F) :
  same_bookkeeping (self w) (self (snd (_fit_epoch w))).
Proof.
  apply (respects__fit_epoch same_bookkeeping).
  - apply same_bookkeeping_refl.
  - apply same_bookkeeping_trans.
  - intros p. now repeat split.
  - intros p o ps. now repeat split.
Qed.

Lemma _validation_loss_bookkeeping (w : world F) :
  same_bookkeeping (self w) (self (snd (_validation_loss w))).
Proof.
  apply (respects__validation_loss same_bookkeeping).
  - apply same_bookkeeping_refl.
  - apply same_bookkeeping_trans.
  - intros p. now repeat split.
Qed.

(** One completed turn of the loop of [fit]: one entry more in each of the
    three histories. *)
Lemma fit_step_Ok (epoch : Z) (w w' : world F) :
  fit_step epoch w = (Ok tt, w') ->
  exists l v,
    losses (self w') =
      dd_append "epoch" (PyInt epoch)
        (dd_append "test" (PyFloat v)
           (dd_append "train" (PyFloat l) (losses (self w))))
    /\ test_interactions (self w') = test_interactions (self w)
    /\ n_epochs (self w') = n_epochs (self w).
Proof.
  unfold fit_step. rewrite bind_run.
  pose proof (_fit_epoch_bookkeeping w) as (L1 & T1 & N1 & V1).
  destruct (_fit_epoch w) as [[l|e] w1]; [|discriminate]. cbn [snd] in *.
  rewrite bind_modify_self, bind_get_self.
  cbn [self test_interactions verbose set_losses].
  destruct (test_interactions (self w1)) as [ds|] eqn:Ets; [|discriminate].
  rewrite bind_run.
  match goal with |- context [_validation_loss ?x] => set (w2 := x) end.
  pose proof (_validation_loss_bookkeeping w2) as (L2 & T2 & N2 & V2).
  destruct (_validation_loss w2) as [[v|e] w3]; [|discriminate].
  cbn [snd] in *. rewrite !bind_modify_self. subst w2.
  cbn [self losses test_interactions n_epochs set_losses] in *.
  intros Hend. exists l, v.
  assert (Hw' : self w' = set_losses
            (dd_append "epoch" (PyInt epoch)
               (dd_append "test" (PyFloat v) (losses (self w3))))
            (set_losses (dd_append "test" (PyFloat v) (losses (self w3)))
               (self w3))).
  { destruct (verbose (self w1)); now injection Hend as <-. }
  rewrite Hw'. cbn [losses test_interactions n_epochs set_losses].
  rewrite L2, L1, T2, N2, N1, <- T1. auto.
Qed.

(** A completed run of the loop over [epochs]. *)
Lemma fit_loop_Ok (epochs : list Z) (w w' : world F) :
  fit_loop epochs w = (Ok tt, w') ->
  (exists tr te,
     length tr = length epochs /\ length te = length epochs
     /\ dd_get "train" (losses (self w')) = dd_get "train" (losses (self w)) ++ tr
     /\ dd_get "test" (losses (self w')) = dd_get "test" (losses (self w)) ++ te
     /\ dd_get "epoch" (losses (self w')) =
        dd_get "epoch" (losses (self w)) ++ map PyInt epochs)
  /\ test_interactions (self w') = test_interactions (self w)
  /\ n_epochs (self w') = n_epochs (self w).
Proof.
  revert w. induction epochs as [|epoch rest IH]; intros w; cbn [fit_loop].
  - intros [= <-]. split; [|auto].
    exists [], []. cbn. now rewrite !app_nil_r.
  - rewrite bind_run.
    destruct (fit_step epoch w) as [[[]|e] w1] eqn:Estep; [|discriminate].
    intros Hrest.
    destruct (fit_step_Ok _ _ _ Estep) as (l & v & Hl & Ht & Hn).
    destruct (IH _ Hrest) as ((tr & te & Ltr & Lte & Etr & Ete & Eep) & Ht' & Hn').
    split; [|split; congruence].
    exists (PyFloat l :: tr), (PyFloat v :: te).
    rewrite Etr, Ete, Eep, Hl. cbn [length map].
    rewrite (dd_get_append_ne "train" "epoch") by discriminate.
    rewrite (dd_get_append_ne "train" "test") by discriminate.
    rewrite dd_get_append_eq.
    rewrite (dd_get_append_ne "test" "epoch") by discriminate.
    rewrite dd_get_append_eq.
    rewrite (dd_get_append_ne "test" "train") by discriminate.
    rewrite dd_get_append_eq.
    rewrite (dd_get_append_ne "epoch" "test") by discriminate.
    rewrite (dd_get_append_ne "epoch" "train") by discriminate.
    rewrite <- !app_assoc. cbn. repeat split; congruence.
Qed.

Lemma length_range (n : Z) : 0 <= n -> Z.of_nat (length (range n)) = n.
Proof. intros Hn. unfold range. rewrite length_map, length_seq. lia. Qed.

Lemma BasePipeline_init_Ok (tr : spmatrix F) (te0 : option (spmatrix F))
    (cls : model_class) (n_factors0 batch_size0 : Z)
    (dropout_p0 lr0 weight_decay0 : F)
    (loss_function0 : list F -> list F -> tensor F) (n_epochs0 : Z) (verbose0 : bool)
    (random_seed : option Z) (g g' : rng) (p : BasePipeline F) :
  BasePipeline_init tr te0 cls n_factors0 batch_size0 dropout_p0 lr0
    weight_decay0 loss_function0 n_epochs0 verbose0 random_seed g = (Ok p, g') ->
  losses p = ∅ /\ n_epochs p = n_epochs0
  /\ exists te, te0 = Some te
       /\ Interactions_init tr (Some te) false = Ok
            (default (train_interactions p) (test_interactions p))
       /\ is_Some (test_interactions p).
Proof.
  unfold BasePipeline_init.
  destruct te0 as [te|]; [|discriminate].
  rewrite !Interactions_init_Some, bind_lift_Ok.
  destruct (DataLoader_init _) as [[]|e]; [|discriminate].
  rewrite bind_lift_Ok, bind_run, bind_lift_Ok.
  destruct (DataLoader_init _) as [[]|e]; [|discriminate].
  rewrite bind_lift_Ok. cbn [mret stateR_ret].
  destruct cls; [|discriminate].
  rewrite bind_run.
  destruct (BaseModule_init _ _ _ _ _ g) as [[m|e] g1]; [|discriminate].
  destruct random_seed as [seed|]; cbn; intros [= <- <-]; cbn;
    (split; [reflexivity|]); (split; [reflexivity|]);
    exists te; (split; [reflexivity|]); (split; [reflexivity|]); eauto.
Qed.

(** Where the seed acts: the generator handed back by a seeded
    construction is the seeded one, while the module was built from the
    generator as the constructor found it. *)
Lemma BasePipeline_init_seeds_last (tr : spmatrix F)
    (te0 : option (spmatrix F)) (cls : model_class)
    (n_factors0 batch_size0 : Z) (dropout_p0 lr0 weight_decay0 : F)
    (loss_function0 : list F -> list F -> tensor F) (n_epochs0 : Z) (verbose0 : bool)
    (seed : Z) (g g' : rng) (p : BasePipeline F) :
  BasePipeline_init tr te0 cls n_factors0 batch_size0 dropout_p0 lr0
    weight_decay0 loss_function0 n_epochs0 verbose0 (Some seed) g = (Ok p, g') ->
  g' = manual_seed seed
  /\ exists g1,
       BaseModule_init (fst (sp_shape tr)) (snd (sp_shape tr)) n_factors0
         dropout_p0 loss_function0 g = (Ok (model p), g1).
Proof.
  unfold BasePipeline_init.
  destruct te0 as [te|]; [|discriminate].
  rewrite !Interactions_init_Some, bind_lift_Ok.
  destruct (DataLoader_init _) as [[]|e]; [|discriminate].
  rewrite bind_lift_Ok, bind_run, bind_lift_Ok.
  destruct (DataLoader_init _) as [[]|e]; [|discriminate].
  rewrite bind_lift_Ok. cbn [mret stateR_ret].
  destruct cls; [|discriminate].
  rewrite bind_run.
  destruct (BaseModule_init _ _ _ _ _ g) as [[m|e] g1]; [|discriminate].
  cbn. intros [= <- <-]. cbn. eauto.
Qed.

(** C10: right after construction the three histories are empty; every
    completed [fit()] keeps what they held and appends [n_epochs] entries to
    each, so the three lengths stay equal from one call to the next. *)
Theorem fit_extends_histories :
  (forall tr te0 cls n_factors0 batch_size0 dropout_p0 lr0 weight_decay0
      loss_function0 n_epochs0 verbose0 random_seed g g' (p : BasePipeline F),
      BasePipeline_init tr te0 cls n_factors0 batch_size0 dropout_p0 lr0
        weight_decay0 loss_function0 n_epochs0 verbose0 random_seed g
      = (Ok p, g') ->
      is_Some (test_interactions p)
      /\ dd_get "epoch" (losses p) = []
      /\ dd_get "train" (losses p) = []
      /\ dd_get "test" (losses p) = []
      /\ histories_aligned p)
  /\ (forall w w' : world F,
        0 <= n_epochs (self w) ->
        fit w = (Ok tt, w') ->
        (forall k, k = "epoch"%string \/ k = "train"%string \/ k = "test"%string ->
           exists new,
             dd_get k (losses (self w')) = dd_get k (losses (self w)) ++ new
             /\ Z.of_nat (length new) = n_epochs (self w))
        /\ (histories_aligned (self w) -> histories_aligned (self w'))
        /\ n_epochs (self w') = n_epochs (self w)
        /\ test_interactions (self w') = test_interactions (self w)).
Proof.
  split.
  - intros * Hinit.
    destruct (BasePipeline_init_Ok _ _ _ _ _ _ _ _ _ _ _ _ _ _ _ Hinit)
      as (Hl & _ & te & _ & _ & Hts).
    unfold histories_aligned, dd_get. rewrite Hl, !lookup_empty. cbn.
    repeat split; assumption.
  - intros w w' Hn Hfit. unfold fit in Hfit. rewrite bind_get_self in Hfit.
    destruct (fit_loop_Ok _ _ _ Hfit)
      as ((tr & te & Ltr & Lte & Etr & Ete & Eep) & Ht & Hn').
    pose proof (length_range _ Hn) as Hlen.
    split; [|split; [|split; assumption]].
    + intros k [-> | [-> | ->]]; eexists; (split; [eassumption|]);
        rewrite ?length_map; lia.
    + unfold histories_aligned. rewrite Etr, Ete, Eep.
      rewrite !length_app, length_map. lia.
Qed.

(** C2 (the code at the failing input): a construction without test data
    followed by [fit()] raises [AttributeError] before any epoch is run;
    and on an object that has no [test_interactions], [fit()] with at least
    one epoch does not complete either. *)
Theorem fit_without_test_data_raises :
  (forall tr n_factors0 dropout_p0 lr0 weight_decay0 loss_function0 n_epochs0
      random_seed g,
      construct_and_fit tr None n_factors0 dropout_p0 lr0 weight_decay0
        loss_function0 n_epochs0 random_seed g = Raise AttributeError)
  /\ (forall w : world F,
        test_interactions (self w) = None ->
        1 <= n_epochs (self w) ->
        exists e, fst (fit w) = Raise e).
Proof.
  split; [reflexivity|].
  intros w Hnone Hn. unfold fit. rewrite bind_get_self.
  unfold range. destruct (Z.to_nat (n_epochs (self w))) as [|n] eqn:En; [lia|].
  cbn [seq map fit_loop]. rewrite bind_run.
  unfold fit_step. rewrite bind_run.
  pose proof (_fit_epoch_bookkeeping w) as (L1 & T1 & N1 & V1).
  destruct (_fit_epoch w) as [[l|e] w1]; [|eauto]. cbn [snd] in *.
  rewrite bind_modify_self, bind_get_self.
  cbn [self test_interactions set_losses].
  rewrite T1, Hnone. eauto.
Qed.

End FitFacts.

(** ** The program run on concrete inputs *)

Section Runs.

Import Example.

Lemma Z_zero_one_facts : zero_one_facts (F := Z).
Proof.
  unfold zero_one_facts, is_zero, not_nan. cbn.
  split; [reflexivity|]. split; [reflexivity|]. split; [reflexivity|].
  split; [|split].
  - intros a b Ha Hb. apply Z.eqb_eq in Ha, Hb. subst. reflexivity.
  - intros a b Ha Hb. apply Z.eqb_eq in Ha, Hb. subst. reflexivity.
  - intros x z _ Hz. apply Z.eqb_eq in Hz. subst. apply Z.eqb_eq. lia.
Defined.

(** C3, as stated, fails: a test split declared [4 x 5] next to a train
    split declared [3 x 2] is accepted. *)
Lemma shape_mismatch_is_accepted :
  sp_shape train3 <> sp_shape test_wide
  /\ exists s, Interactions_init train3 (Some test_wide) true = Ok s
       /\ n_users s = 3 /\ n_items s = 2.
Proof. split; [discriminate|]. eexists. repeat split. Qed.

(** C6, as stated, fails: index [-1] lies outside [0, 3) and is served
    with the last triple. *)
Lemma negative_index_is_served :
  exists s, Interactions_init train3 (Some test3) true = Ok s
    /\ Interactions_len s = 3
    /\ ~ (0 <= -1 < Interactions_len s)
    /\ Interactions_getitem s (-1) = Ok ((2, 0), 1).
Proof.
  eexists. split; [reflexivity|]. split; [reflexivity|].
  split; [|reflexivity]. intros [Hlo _]. lia.
Qed.

Lemma Interactions_getitem_spec_witness :
  exists s, Interactions_init train3 (Some test3) true = Ok s
    /\ (exists r c v, Interactions_getitem s 1 = Ok ((r, c), v))
    /\ Interactions_getitem s (-3) = Interactions_getitem s 0
    /\ Interactions_getitem s 3 = Raise IndexError.
Proof.
  eexists. split; [reflexivity|].
  split; [|split].
  - destruct (Interactions_getitem_spec train3 test3 true _ 1 eq_refl)
      as (Hin & _ & _).
    assert (Hr : 0 <= 1 < 3) by lia.
    destruct (Hin Hr) as (r & c & v & _ & _ & _ & Hget).
    now exists r, c, v.
  - destruct (Interactions_getitem_spec train3 test3 true _ (-3) eq_refl)
      as (_ & Hneg & _).
    assert (Hr : - 3 <= -3 < 0) by lia.
    exact (Hneg Hr).
  - destruct (Interactions_getitem_spec train3 test3 true _ 3 eq_refl)
      as (_ & _ & Hout).
    assert (Hr : 3 < - 3 \/ 3 <= 3) by lia.
    exact (Hout Hr).
Defined.

Lemma tiny_module_wf (b : Z) (mode : bool) (p : Z) :
  wf_module (tiny_module b mode p).
Proof. repeat split. Defined.

(** A batch of two in-range pairs raises; the pair (0, 1) alone scores
    [3 + 0 + 1 * 1]. *)
Lemma forward_one_pair_only_witness :
  fst (forward (tiny_module 3 false 0) [0; 0] [0; 1] (at_state 0))
    = Raise RuntimeError
  /\ forward (tiny_module 3 false 0) [0] [1] (at_state 0)
     = (Ok [3 + 0 + (0 + 1 * 1)], at_state 0).
Proof.
  destruct (forward_one_pair_only (tiny_module 3 false 0) (at_state 0)
              (tiny_module_wf 3 false 0)) as [Hbatch Hone].
  split.
  - apply Hbatch.
    + repeat constructor; cbn; lia.
    + repeat constructor; cbn; lia.
    + left. cbn. lia.
  - destruct (Hone 0 1)
      as (ub & ib & uf & itf & d & e & g1 & g2
          & Eub & Eib & Euf & Eif & _ & _ & Hrun & Hev).
    + unfold in_range. cbn. lia.
    + unfold in_range. cbn. lia.
    + destruct (Hev eq_refl) as (-> & -> & ->).
      cbn in Eub, Eib, Euf, Eif.
      injection Eub as <-. injection Eib as <-.
      injection Euf as <-. injection Eif as <-.
      exact (Hrun eq_refl).
Defined.

(** C7, as stated, fails: a module constructed with [dropout_p = 1] and
    switched to evaluation mode scores the pair (0, 0) as 15, while
    [user_bias[0] + item_bias[0]] is 3. *)
Lemma dropout_one_eval_keeps_dot :
  exists m g,
    BaseModule_init 1 1 1 1 mse_sum (at_state 1) = (Ok m, g)
    /\ dropout_p m = 1
    /\ user_biases (parameters m) = [1]
    /\ item_biases (parameters m) = [2]
    /\ forward (set_training false m) [0] [0] g = (Ok [15], g)
    /\ 15 <> 1 + 2.
Proof. eexists _, _. split; [reflexivity|]. repeat split. lia. Qed.

(** In training mode with [dropout_p = 1] the pair (0, 1) scores
    [3 + 0 + 0]. *)
Lemma forward_dropout_one_training_witness :
  forward (tiny_module 3 true 1) [0] [1] (at_state 0)
    = (Ok [3 + 0 + 0], at_state 0)
  /\ feqb (3 + 0 + 0) (3 + 0) = true.
Proof.
  destruct (forward_dropout_one_training (tiny_module 3 true 1) 0 1 (at_state 0))
    as (ub & ib & uf & itf & Eub & Eib & Euf & Eif & Hrun).
  - exact Z_zero_one_facts.
  - apply tiny_module_wf.
  - reflexivity.
  - reflexivity.
  - unfold in_range. cbn. lia.
  - unfold in_range. cbn. lia.
  - cbn in Eub, Eib, Euf, Eif.
    injection Eub as <-. injection Eib as <-.
    injection Euf as <-. injection Eif as <-.
    destruct (Hrun eq_refl) as [Hf Hz]. split; [exact Hf|].
    apply Hz; [repeat constructor .. | reflexivity].
Defined.


(** C9 (the code at the failing input): the same data, hyperparameters and
    seed, constructed and fitted from two states of the process-wide
    generator, give two completed runs with different train histories: the
    embeddings are drawn before the constructor seeds the generator. *)
Theorem same_seed_different_histories :
  construct_and_fit train1 (Some test1) 2 0 1 0 sse_vector 2 (Some 7)
    (at_state 0)
    = Ok [PyFloat 42025; PyFloat 42436]
  /\ construct_and_fit train1 (Some test1) 2 0 1 0 sse_vector 2 (Some 7)
       (at_state 5)
     = Ok [PyFloat 225625; PyFloat 226576]
  /\ construct_and_fit train1 (Some test1) 2 0 1 0 sse_vector 2 (Some 7)
       (at_state 0)
     <> construct_and_fit train1 (Some test1) 2 0 1 0 sse_vector 2 (Some 7)
          (at_state 5).
Proof.
  assert (H0 : construct_and_fit train1 (Some test1) 2 0 1 0 sse_vector 2
                 (Some 7) (at_state 0)
               = Ok [PyFloat 42025; PyFloat 42436]) by (vm_compute; reflexivity).
  assert (H5 : construct_and_fit train1 (Some test1) 2 0 1 0 sse_vector 2
                 (Some 7) (at_state 5)
               = Ok [PyFloat 225625; PyFloat 226576])
    by (vm_compute; reflexivity).
  split; [exact H0|]. split; [exact H5|].
  rewrite H0, H5. discriminate.
Qed.

Lemma fit_extends_histories_witness :
  match started (pipeline1 2 (at_state 0)) with
  | Some w =>
      histories_aligned (self w)
      /\ fst (fit w) = Ok tt
      /\ histories_aligned (self (snd (fit w)))
      /\ length (dd_get "train" (losses (self (snd (fit w))))) = 2%nat
  | None => False
  end.
Proof.
  destruct (fit_extends_histories (F := Z)) as [Hinit Hfit].
  unfold started.
  destruct (pipeline1 2 (at_state 0)) as [[p|e] g] eqn:Ep;
    [|vm_compute in Ep; discriminate].
  cbn [self].
  pose proof Ep as Ep'. unfold pipeline1 in Ep'.
  destruct (Hinit _ _ _ _ _ _ _ _ _ _ _ _ _ _ _ Ep')
    as (_ & _ & Etr & _ & Hal).
  vm_compute in Ep. injection Ep as <- <-.
  match goal with |- context [fit ?w0] => set (w := w0) in * end.
  assert (Hrun : fit w = (Ok tt, snd (fit w))) by (vm_compute; reflexivity).
  assert (Hn : 0 <= n_epochs (self w)) by (vm_compute; discriminate).
  destruct (Hfit w _ Hn Hrun) as (Hk & Hal' & _ & _).
  split; [exact Hal|]. split; [now rewrite Hrun|]. split; [exact (Hal' Hal)|].
  destruct (Hk "train"%string) as (new & Enew & Hlen); [auto|].
  rewrite Enew. cbn [self w]. rewrite Etr. cbn [app].
  change (n_epochs (self w)) with 2 in Hlen. lia.
Defined.

Lemma fit_without_test_data_raises_witness :
  construct_and_fit train1 None 2 0 1 0 sse_vector 2 (Some 7) (at_state 0)
    = Raise AttributeError
  /\ match started (pipeline1 2 (at_state 0)) with
     | Some w =>
         exists e,
           fst (fit {| self := without_test_interactions (self w);
                       gen := gen w; stdout := stdout w |}) = Raise e
     | None => False
     end.
Proof.
  destruct (fit_without_test_data_raises (F := Z)) as [Hc Hf].
  split; [apply Hc|].
  destruct (started (pipeline1 2 (at_state 0))) as [w|] eqn:E;
    [|vm_compute in E; discriminate].
  apply Hf; [reflexivity|].
  vm_compute in E. injection E as <-. vm_compute. discriminate.
Defined.

End Runs.

(** ** The store against the matrices it was built from *)

Section StoreEntries.

Context {F : Type} `{Scalar F}.

(** Reading position [k] of a constructed store gives the [k]-th stored
    entry of the matrix behind the split it serves, the rating cast to
    float32. *)
Theorem Interactions_getitem_entry (tr te : spmatrix F) (flag : bool)
    (s : Interactions F) (k : nat) (r c : Z) (v : F) :
  Interactions_init tr (Some te) flag = Ok s ->
  sp_entries (if flag then tr else te) !! k = Some (r, c, v) ->
  Interactions_getitem s (Z.of_nat k) = Ok ((r, c), fcast32 v).
Proof.
  rewrite Interactions_init_Some. intros [= <-] Hk.
  rewrite Interactions_getitem_split.
  unfold split_row, split_col, split_val, tocoo.
  pose proof (Nat2Z.is_nonneg k) as Hpos.
  destruct flag; cbn [train train_row train_col train_val test_row test_col
                      test_val row col data].
  - rewrite (tensor_getitem_nonneg
               (map (fun e : Z * Z * F => fst (fst e)) (sp_entries tr)) _ r Hpos)
      by (rewrite Nat2Z.id, list_lookup_fmap, Hk; reflexivity).
    rewrite (tensor_getitem_nonneg
               (map (fun e : Z * Z * F => snd (fst e)) (sp_entries tr)) _ c Hpos)
      by (rewrite Nat2Z.id, list_lookup_fmap, Hk; reflexivity).
    rewrite (tensor_getitem_nonneg
               (map fcast32 (map snd (sp_entries tr))) _ (fcast32 v) Hpos)
      by (rewrite Nat2Z.id, !list_lookup_fmap, Hk; reflexivity).
    reflexivity.
  - rewrite (tensor_getitem_nonneg
               (map (fun e : Z * Z * F => fst (fst e)) (sp_entries te)) _ r Hpos)
      by (rewrite Nat2Z.id, list_lookup_fmap, Hk; reflexivity).
    rewrite (tensor_getitem_nonneg
               (map (fun e : Z * Z * F => snd (fst e)) (sp_entries te)) _ c Hpos)
      by (rewrite Nat2Z.id, list_lookup_fmap, Hk; reflexivity).
    rewrite (tensor_getitem_nonneg
               (map fcast32 (map snd (sp_entries te))) _ (fcast32 v) Hpos)
      by (rewrite Nat2Z.id, !list_lookup_fmap, Hk; reflexivity).
    reflexivity.
Qed.

End StoreEntries.

(** ** Index errors and the generator in the prediction models *)

Section ModuleEdges.

Context {F : Type} `{Scalar F} `{Random F}.

(** An id outside the configured range, among the users or among the
    items, makes [forward] raise [IndexError]; nothing is drawn from the
    generator. *)
Theorem forward_out_of_range (m : BaseModule F) (users items : list Z)
    (g : rng) :
  wf_module m ->
  Exists (fun u => ~ in_range (mod_n_users m) u) users
  \/ Exists (fun i => ~ in_range (mod_n_items m) i) items ->
  forward m users items g = (Raise IndexError, g).
Proof.
  intros (Hub & Hue & Hib & Hie) Hbad. unfold forward. cbv zeta.
  destruct Hbad as [Hu | Hi].
  - rewrite (embedding_out_of_range (user_embeddings (parameters m)))
      by now rewrite Hue.
    reflexivity.
  - destruct (embedding_cases (user_embeddings (parameters m)) users)
      as [[rows ->] | ->]; [|reflexivity].
    rewrite bind_lift_Ok.
    rewrite (embedding_out_of_range (item_embeddings (parameters m)))
      by now rewrite Hie.
    reflexivity.
Qed.

(** With dropout off (evaluation mode, or [dropout_p] not above zero)
    [forward] leaves the generator as it found it and its result does not
    depend on the generator, whether it returns or raises. *)
Theorem forward_without_dropout (m : BaseModule F) (users items : list Z)
    (g g' : rng) :
  training m && fltb fzero (dropout_p m) = false ->
  snd (forward m users items g) = g
  /\ fst (forward m users items g) = fst (forward m users items g').
Proof.
  intros Hoff. unfold forward. cbv zeta.
  destruct (embedding (user_embeddings (parameters m)) users) as [ues|e];
    [rewrite !bind_lift_Ok | now rewrite !bind_lift_Raise].
  destruct (embedding (item_embeddings (parameters m)) items) as [uis|e];
    [rewrite !bind_lift_Ok | now rewrite !bind_lift_Raise].
  destruct (embedding (user_biases (parameters m)) users) as [ub|e];
    [rewrite !bind_lift_Ok | now rewrite !bind_lift_Raise].
  destruct (embedding (item_biases (parameters m)) items) as [ib|e];
    [rewrite !bind_lift_Ok | now rewrite !bind_lift_Raise].
  destruct (bzip fadd ub ib) as [preds|e];
    [rewrite !bind_lift_Ok | now rewrite !bind_lift_Raise].
  repeat (rewrite !bind_total, !(dropout_off _ _ _ _ Hoff); cbn [fst snd]).
  destruct (tmul2 ues uis) as [prod|e];
    [rewrite !bind_lift_Ok | now rewrite !bind_lift_Raise].
  split; reflexivity.
Qed.

(** An id outside the configured range among the users, the positive
    items or the negative items makes the pairwise model raise
    [IndexError]; nothing is drawn from the generator. *)
Theorem BPR_forward_out_of_range (m : BaseModule F)
    (users pos_items neg_items : list Z) (g : rng) :
  wf_module m ->
  Exists (fun u => ~ in_range (mod_n_users m) u) users
  \/ Exists (fun i => ~ in_range (mod_n_items m) i) pos_items
  \/ Exists (fun i => ~ in_range (mod_n_items m) i) neg_items ->
  BPR_forward m users pos_items neg_items g = (Raise IndexError, g).
Proof.
  intros (Hub & Hue & Hib & Hie) Hbad. unfold BPR_forward. cbv zeta.
  destruct (embedding_cases (user_embeddings (parameters m)) users)
    as [[ues Eu] | Eu].
  - rewrite Eu, bind_lift_Ok.
    destruct (embedding_cases (item_embeddings (parameters m)) pos_items)
      as [[pe Ep] | Ep].
    + rewrite Ep, bind_lift_Ok.
      destruct Hbad as [Hu | [Hp | Hn]].
      * rewrite (embedding_out_of_range (user_embeddings (parameters m)))
          in Eu by now rewrite Hue.
        discriminate.
      * rewrite (embedding_out_of_range (item_embeddings (parameters m)))
          in Ep by now rewrite Hie.
        discriminate.
      * rewrite (embedding_out_of_range (item_embeddings (parameters m))
                   neg_items) by now rewrite Hie.
        reflexivity.
    + now rewrite Ep.
  - now rewrite Eu.
Qed.

End ModuleEdges.

(** ** Frames over the whole world *)

Section WorldFrame.

Context {F : Type} `{Scalar F} `{Random F} `{!Autograd F}.

Variable R : world F -> world F -> Prop.
Hypothesis R_refl : forall w, R w w.
Hypothesis R_trans : forall u v w, R u v -> R v w -> R u w.
Hypothesis R_gen : forall w g,
  R w {| self := self w; gen := g; stdout := stdout w |}.

Lemma wrespects_mret {A : Type} (a : A) : wrespects R (mret a).
Proof. intros w. apply R_refl. Qed.

Lemma wrespects_raise {A : Type} (e : exn) :
  wrespects R (raise e : stateR _ A).
Proof. intros w. apply R_refl. Qed.

Lemma wrespects_lift_result {A : Type} (r : result A) :
  wrespects R (lift_result r).
Proof. intros w. apply R_refl. Qed.

Lemma wrespects_get_self : wrespects R get_self.
Proof. intros w. apply R_refl. Qed.

Lemma wrespects_get_gen : wrespects R get_gen.
Proof. intros w. apply R_refl. Qed.

Lemma wrespects_with_gen {A : Type} (m : stateR rng A) :
  wrespects R (with_gen m).
Proof.
  intros w. unfold with_gen. destruct (m (gen w)) as [r g']. apply R_gen.
Qed.

Lemma wrespects_modify_self (f : BasePipeline F -> BasePipeline F) :
  (forall w, R w {| self := f (self w); gen := gen w; stdout := stdout w |}) ->
  wrespects R (modify_self f).
Proof. intros Hf w. apply Hf. Qed.

Lemma wrespects_bind {A B : Type} (m : stateR (world F) A)
    (k : A -> stateR (world F) B) :
  wrespects R m -> (forall a, wrespects R (k a)) -> wrespects R (m ≫= k).
Proof.
  intros Hm Hk w. rewrite bind_run.
  specialize (Hm w). destruct (m w) as [[a|e] w1]; cbn in *; [|assumption].
  eapply R_trans; [exact Hm|]. apply Hk.
Qed.

Lemma wrespects_for_batches (body : list nat -> F -> stateR (world F) F)
    (batches : list (list nat)) (acc : F) :
  (forall b x, wrespects R (body b x)) ->
  wrespects R (for_batches body batches acc).
Proof.
  intros Hbody. revert acc.
  induction batches as [|b rest IH]; intros acc; cbn [for_batches].
  - apply wrespects_mret.
  - apply wrespects_bind; [apply Hbody|]. intros a. apply IH.
Qed.

Lemma wrespects_DataLoader_indices (ds : Interactions F) :
  wrespects R (DataLoader_indices ds).
Proof.
  unfold DataLoader_indices.
  apply wrespects_bind; [apply wrespects_with_gen|].
  intros perm. apply wrespects_mret.
Qed.

Lemma wrespects_validation_batch (ds : Interactions F) (idx : list nat)
    (acc : F) :
  wrespects R (validation_batch ds idx acc).
Proof.
  unfold validation_batch.
  apply wrespects_bind; [apply wrespects_get_self|]. intros p.
  apply wrespects_bind; [apply wrespects_lift_result|].
  intros [[row0 col0] val0].
  apply wrespects_bind; [apply wrespects_with_gen|]. intros preds.
  apply wrespects_bind; [apply wrespects_lift_result|]. intros x.
  apply wrespects_lift_result.
Qed.

(** Everything [_validation_loss] does after switching the mode. *)
Lemma _validation_loss_after_mode (w : world F) :
  R {| self := in_mode false (self w); gen := gen w; stdout := stdout w |}
    (snd (_validation_loss w)).
Proof.
  unfold _validation_loss. rewrite bind_modify_self. fold (in_mode false (self w)).
  generalize {| self := in_mode false (self w); gen := gen w; stdout := stdout w |}.
  apply wrespects_bind; [apply wrespects_get_self|]. intros p.
  destruct (test_interactions p) as [ds|]; [|apply wrespects_raise].
  apply wrespects_bind; [apply wrespects_DataLoader_indices|]. intros batches.
  apply wrespects_bind.
  - apply wrespects_for_batches. intros b x. apply wrespects_validation_batch.
  - intros total_loss. apply wrespects_mret.
Qed.

Hypothesis R_step : forall w o ps,
  R w {| self := retrained o ps (self w); gen := gen w; stdout := stdout w |}.

Lemma wrespects_fit_batch (idx : list nat) (acc : F) :
  wrespects R (fit_batch idx acc).
Proof.
  unfold fit_batch.
  apply wrespects_bind; [apply wrespects_get_self|]. intros p.
  apply wrespects_bind; [apply wrespects_lift_result|].
  intros [[row0 col0] val0].
  apply wrespects_bind; [apply wrespects_get_gen|]. intros g.
  apply wrespects_bind; [apply wrespects_with_gen|]. intros preds.
  apply wrespects_bind; [apply wrespects_lift_result|]. intros gr.
  destruct (optimizer_step _ _ _) as [o' ps'].
  apply wrespects_bind; [apply wrespects_modify_self; intros w; apply R_step|].
  intros _.
  apply wrespects_bind; [apply wrespects_lift_result|]. intros x.
  apply wrespects_lift_result.
Qed.

(** Everything [_fit_epoch] does after switching the mode. *)
Lemma _fit_epoch_after_mode (w : world F) :
  R {| self := in_mode true (self w); gen := gen w; stdout := stdout w |}
    (snd (_fit_epoch w)).
Proof.
  unfold _fit_epoch. rewrite bind_modify_self. fold (in_mode true (self w)).
  generalize {| self := in_mode true (self w); gen := gen w; stdout := stdout w |}.
  apply wrespects_bind; [apply wrespects_get_self|]. intros p.
  apply wrespects_bind; [apply wrespects_DataLoader_indices|]. intros batches.
  apply wrespects_bind.
  - apply wrespects_for_batches. intros b x. apply wrespects_fit_batch.
  - intros total_loss. apply wrespects_mret.
Qed.

End WorldFrame.

(** ** What one epoch and one validation pass change *)

Section EpochFrames.

Context {F : Type} `{Scalar F} `{Random F} `{!Autograd F}.

Lemma retrained_same (p : BasePipeline F) :
  retrained (optimizer p) (parameters (model p)) p = p.
Proof. destruct p as [? ? ? ? ? ? ? ? ? ? ? [] ? ? ? ?]. reflexivity. Qed.

Lemma _validation_loss_effect (w : world F) :
  self (snd (_validation_loss w)) = in_mode false (self w)
  /\ stdout (snd (_validation_loss w)) = stdout w.
Proof.
  apply (_validation_loss_after_mode
           (fun u v => self v = self u /\ stdout v = stdout u)).
  - intros u. split; reflexivity.
  - intros u v x [A1 A2] [B1 B2]. split; congruence.
  - intros u g. split; reflexivity.
Qed.

Lemma _fit_epoch_effect (w : world F) :
  (exists o ps,
     self (snd (_fit_epoch w)) = retrained o ps (in_mode true (self w)))
  /\ stdout (snd (_fit_epoch w)) = stdout w.
Proof.
  apply (_fit_epoch_after_mode
           (fun u v => (exists o ps, self v = retrained o ps (self u))
                       /\ stdout v = stdout u)).
  - intros u. split; [|reflexivity].
    exists (optimizer (self u)), (parameters (model (self u))).
    symmetry. apply retrained_same.
  - intros u v x [(o & ps & A1) A2] [(o' & ps' & B1) B2].
    split; [|congruence].
    exists o', ps'. rewrite B1, A1. reflexivity.
  - intros u g. split; [|reflexivity].
    exists (optimizer (self u)), (parameters (model (self u))).
    symmetry. apply retrained_same.
  - intros u o ps. split; [|reflexivity]. exists o, ps. reflexivity.
Qed.

(** A validation pass, whether it completes or raises, leaves the module
    in evaluation mode and changes nothing else of the pipeline object:
    parameters, optimizer state, histories, stores, sizes and
    hyperparameters are as before, and nothing is printed. *)
Theorem _validation_loss_frame (w : world F) :
  let p := self w in
  let p' := self (snd (_validation_loss w)) in
  training (model p') = false
  /\ parameters (model p') = parameters (model p)
  /\ optimizer p' = optimizer p
  /\ losses p' = losses p
  /\ train_interactions p' = train_interactions p
  /\ test_interactions p' = test_interactions p
  /\ n_epochs p' = n_epochs p
  /\ dropout_p (model p') = dropout_p (model p)
  /\ (mod_n_users (model p'), mod_n_items (model p'))
     = (mod_n_users (model p), mod_n_items (model p))
  /\ stdout (snd (_validation_loss w)) = stdout w.
Proof.
  intros p p'. subst p p'.
  destruct (_validation_loss_effect w) as [-> ->]. cbn. auto 12.
Qed.

(** A training epoch, whether it completes or raises, leaves the module in
    training mode and touches only the parameter tables and the optimizer
    state: histories, stores, [n_epochs], verbosity, sizes, dropout
    probability and loss function are as before, and nothing is printed. *)
Theorem _fit_epoch_frame (w : world F) :
  let p := self w in
  let p' := self (snd (_fit_epoch w)) in
  training (model p') = true
  /\ losses p' = losses p
  /\ train_interactions p' = train_interactions p
  /\ test_interactions p' = test_interactions p
  /\ n_epochs p' = n_epochs p
  /\ verbose p' = verbose p
  /\ dropout_p (model p') = dropout_p (model p)
  /\ loss_function (model p') = loss_function (model p)
  /\ (mod_n_users (model p'), mod_n_items (model p'))
     = (mod_n_users (model p), mod_n_items (model p))
  /\ stdout (snd (_fit_epoch w)) = stdout w.
Proof.
  intros p p'. subst p p'.
  destruct (_fit_epoch_effect w) as [(o & ps & ->) ->]. cbn. auto 12.
Qed.

End EpochFrames.

(** ** What [fit] records and prints *)

Section FitRecords.

Context {F : Type} `{Scalar F} `{Random F} `{!Autograd F}.

Lemma bind_print {B : Type} (r : progress_row)
    (k : unit -> stateR (world F) B) (w : world F) :
  (print r ≫= k) w =
  k tt {| self := self w; gen := gen w; stdout := stdout w ++ [r] |}.
Proof. reflexivity. Qed.

(** One completed turn of the loop of [fit], in full. *)
Lemma fit_step_effect (epoch : Z) (w w' : world F) :
  fit_step epoch w = (Ok tt, w') ->
  exists l v o ps,
    self w' =
      set_losses
        (dd_append "epoch" (PyInt epoch)
           (dd_append "test" (PyFloat v)
              (dd_append "train" (PyFloat l) (losses (self w)))))
        (in_mode false (retrained o ps (self w)))
    /\ stdout w' =
       stdout w ++ (if verbose (self w) then [(epoch, l, Some v)] else [])
    /\ is_Some (test_interactions (self w)).
Proof.
  unfold fit_step. rewrite bind_run.
  pose proof (_fit_epoch_effect w) as ((o & ps & S1) & O1).
  destruct (_fit_epoch w) as [[l|e] w1]; [|discriminate]. cbn [snd] in *.
  rewrite bind_modify_self, bind_get_self.
  cbn [self test_interactions verbose set_losses].
  destruct (test_interactions (self w1)) as [ds|] eqn:Ets; [|discriminate].
  rewrite bind_run.
  match goal with |- context [_validation_loss ?x] => set (w2 := x) end.
  pose proof (_validation_loss_effect w2) as (S2 & O2).
  destruct (_validation_loss w2) as [[v|e] w3]; [|discriminate].
  cbn [snd] in *. rewrite !bind_modify_self. subst w2.
  cbn [self stdout gen] in *.
  intros Hend. exists l, v, o, ps.
  rewrite S1 in Ets. cbn in Ets.
  assert (Hv : verbose (self w1) = verbose (self w)) by now rewrite S1.
  rewrite Hv in Hend.
  split; [|split; [|rewrite Ets; eauto]].
  - assert (Hs : self w' =
        set_losses
          (dd_append "epoch" (PyInt epoch)
             (dd_append "test" (PyFloat v) (losses (self w3))))
          (set_losses (dd_append "test" (PyFloat v) (losses (self w3)))
             (self w3))).
    { destruct (verbose (self w)); now injection Hend as <-. }
    rewrite Hs, S2, S1. reflexivity.
  - destruct (verbose (self w)); injection Hend as <-; cbn [stdout];
      rewrite O2, O1; [reflexivity|now rewrite app_nil_r].
Qed.

Lemma in_mode_retrained_again (b b' : bool) (o o' : optim) (ps ps' : Params F)
    (L L' : gmap string (list (pyval F))) (p : BasePipeline F) :
  set_losses L' (in_mode b' (retrained o' ps'
    (set_losses L (in_mode b (retrained o ps p)))))
  = set_losses L' (in_mode b' (retrained o' ps' p)).
Proof. reflexivity. Qed.

(** A completed run of the loop over [epochs], in full. *)
Lemma fit_loop_effect (epochs : list Z) (w w' : world F) :
  fit_loop epochs w = (Ok tt, w') ->
  exists tr te,
    length tr = length epochs /\ length te = length epochs
    /\ dd_get "train" (losses (self w')) =
       dd_get "train" (losses (self w)) ++ map PyFloat tr
    /\ dd_get "test" (losses (self w')) =
       dd_get "test" (losses (self w)) ++ map PyFloat te
    /\ dd_get "epoch" (losses (self w')) =
       dd_get "epoch" (losses (self w)) ++ map PyInt epochs
    /\ stdout w' =
       stdout w ++ (if verbose (self w) then progress_rows epochs tr te else [])
    /\ (epochs <> [] ->
        is_Some (test_interactions (self w))
        /\ exists L o ps,
             self w' = set_losses L (in_mode false (retrained o ps (self w)))).
Proof.
  revert w. induction epochs as [|epoch rest IH]; intros w; cbn [fit_loop].
  - intros [= <-]. exists [], []. cbn [length map progress_rows].
    rewrite !app_nil_r.
    repeat (split; [reflexivity|]).
    split; [destruct (verbose (self w)); now rewrite app_nil_r|].
    intros Hne. now contradict Hne.
  - rewrite bind_run.
    destruct (fit_step epoch w) as [[[]|e] w1] eqn:Estep; [|discriminate].
    intros Hrest.
    destruct (fit_step_effect _ _ _ Estep) as (l & v & o & ps & S1 & O1 & T1).
    destruct (IH _ Hrest)
      as (tr & te & Ltr & Lte & Etr & Ete & Eep & Eout & Hmode).
    assert (Hv : verbose (self w1) = verbose (self w)) by now rewrite S1.
    exists (l :: tr), (v :: te).
    rewrite Etr, Ete, Eep, Eout, O1, Hv, S1.
    cbn [losses set_losses length map progress_rows].
    rewrite (dd_get_append_ne "train" "epoch") by discriminate.
    rewrite (dd_get_append_ne "train" "test") by discriminate.
    rewrite dd_get_append_eq.
    rewrite (dd_get_append_ne "test" "epoch") by discriminate.
    rewrite dd_get_append_eq.
    rewrite (dd_get_append_ne "test" "train") by discriminate.
    rewrite dd_get_append_eq.
    rewrite (dd_get_append_ne "epoch" "test") by discriminate.
    rewrite (dd_get_append_ne "epoch" "train") by discriminate.
    rewrite <- !app_assoc. cbn [app].
    split; [congruence|]. split; [congruence|].
    repeat (split; [reflexivity|]).
    split; [now destruct (verbose (self w))|].
    intros _. split; [exact T1|].
    destruct rest as [|e2 rest'].
    + cbn [fit_loop] in Hrest. injection Hrest as <-.
      eexists _, o, ps. exact S1.
    + destruct Hmode as (_ & L & o' & ps' & S2); [discriminate|].
      exists L, o', ps'. rewrite S2, S1. apply in_mode_retrained_again.
Qed.

(** A completed [fit()] appends to the 'epoch' history the numbers 0, 1,
    ..., n_epochs - 1 (it restarts at 0 on every call), appends one float
    per epoch to 'train' and to 'test', and prints, when verbose, exactly
    one line per epoch carrying that epoch's number, train loss and test
    loss; when not verbose it prints nothing. *)
Theorem fit_records (w w' : world F) :
  fit w = (Ok tt, w') ->
  exists tr te,
    length tr = Z.to_nat (n_epochs (self w))
    /\ length te = Z.to_nat (n_epochs (self w))
    /\ dd_get "train" (losses (self w')) =
       dd_get "train" (losses (self w)) ++ map PyFloat tr
    /\ dd_get "test" (losses (self w')) =
       dd_get "test" (losses (self w)) ++ map PyFloat te
    /\ dd_get "epoch" (losses (self w')) =
       dd_get "epoch" (losses (self w)) ++ map PyInt (range (n_epochs (self w)))
    /\ stdout w' =
       stdout w ++ (if verbose (self w)
                    then progress_rows (range (n_epochs (self w))) tr te
                    else []).
Proof.
  unfold fit. rewrite bind_get_self. intros Hfit.
  destruct (fit_loop_effect _ _ _ Hfit)
    as (tr & te & Ltr & Lte & Etr & Ete & Eep & Eout & _).
  exists tr, te.
  assert (Hr : length (range (n_epochs (self w))) = Z.to_nat (n_epochs (self w))).
  { unfold range. now rewrite length_map, length_seq. }
  rewrite <- Hr. auto 10.
Qed.

(** A completed [fit()] of at least one epoch needs the test store and
    leaves the module in evaluation mode, since each epoch ends with a
    validation pass; apart from the histories, only the parameter tables and
    the optimizer state differ from before. *)
Theorem fit_leaves_evaluation_mode (w w' : world F) :
  1 <= n_epochs (self w) ->
  fit w = (Ok tt, w') ->
  is_Some (test_interactions (self w))
  /\ training (model (self w')) = false
  /\ exists L o ps,
       self w' = set_losses L (in_mode false (retrained o ps (self w))).
Proof.
  intros Hn. unfold fit. rewrite bind_get_self. intros Hfit.
  destruct (fit_loop_effect _ _ _ Hfit) as (tr & te & _ & _ & _ & _ & _ & _ & Hmode).
  destruct Hmode as (Hts & L & o & ps & Hs).
  { unfold range. destruct (Z.to_nat (n_epochs (self w))) eqn:E; [lia|].
    discriminate. }
  split; [exact Hts|]. split; [now rewrite Hs|]. eauto.
Qed.

(** With [n_epochs] zero or negative, [fit()] does nothing at all: no
    epoch is run, nothing is recorded or printed, no error is raised, even
    on an object without test data. *)
Theorem fit_no_epochs (w : world F) :
  n_epochs (self w) <= 0 -> fit w = (Ok tt, w).
Proof.
  intros Hn. unfold fit. rewrite bind_get_self. unfold range.
  replace (Z.to_nat (n_epochs (self w))) with O by lia. reflexivity.
Qed.

End FitRecords.

(** ** What any run of [fit] leaves alone *)

Section FitFrame.

Context {F : Type} `{Scalar F} `{Random F} `{!Autograd F}.

Variable R : world F -> world F -> Prop.
Hypothesis R_refl : forall w, R w w.
Hypothesis R_trans : forall u v w, R u v -> R v w -> R u w.
Hypothesis R_gen : forall w g,
  R w {| self := self w; gen := g; stdout := stdout w |}.
Hypothesis R_step : forall w o ps,
  R w {| self := retrained o ps (self w); gen := gen w; stdout := stdout w |}.
Hypothesis R_mode : forall w b,
  R w {| self := in_mode b (self w); gen := gen w; stdout := stdout w |}.
Hypothesis R_append : forall w k v,
  R w {| self := set_losses (dd_append k v (losses (self w))) (self w);
         gen := gen w; stdout := stdout w |}.
Hypothesis R_print : forall w r,
  R w {| self := self w; gen := gen w; stdout := stdout w ++ [r] |}.

Lemma wrespects__fit_epoch : wrespects R _fit_epoch.
Proof.
  intros w. eapply R_trans; [apply (R_mode w true)|].
  now apply _fit_epoch_after_mode.
Qed.

Lemma wrespects__validation_loss : wrespects R _validation_loss.
Proof.
  intros w. eapply R_trans; [apply (R_mode w false)|].
  now apply _validation_loss_after_mode.
Qed.

Lemma wrespects_fit_step (epoch : Z) : wrespects R (fit_step epoch).
Proof.
  unfold fit_step.
  apply (wrespects_bind R R_trans); [apply wrespects__fit_epoch|]. intros l.
  apply (wrespects_bind R R_trans).
  { apply wrespects_modify_self. intros w. apply R_append. }
  intros _.
  apply (wrespects_bind R R_trans); [now apply wrespects_get_self|]. intros p.
  destruct (test_interactions p) as [ds|]; [|now apply wrespects_raise].
  apply (wrespects_bind R R_trans); [apply wrespects__validation_loss|].
  intros v.
  apply (wrespects_bind R R_trans).
  { apply wrespects_modify_self. intros w. apply R_append. }
  intros _.
  apply (wrespects_bind R R_trans).
  { apply wrespects_modify_self. intros w. apply R_append. }
  intros _.
  destruct (verbose p); [|now apply wrespects_mret].
  intros w. apply R_print.
Qed.

Lemma wrespects_fit_loop (epochs : list Z) : wrespects R (fit_loop epochs).
Proof.
  induction epochs as [|epoch rest IH]; cbn [fit_loop].
  - now apply wrespects_mret.
  - apply (wrespects_bind R R_trans); [apply wrespects_fit_step|].
    intros _. exact IH.
Qed.

Lemma wrespects_fit : wrespects R fit.
Proof.
  unfold fit.
  apply (wrespects_bind R R_trans); [now apply wrespects_get_self|].
  intros p. apply wrespects_fit_loop.
Qed.

End FitFrame.

Section FitAnyRun.

Context {F : Type} `{Scalar F} `{Random F} `{!Autograd F}.

Lemma dd_get_append_prefix (k k' : string) (v : pyval F)
    (d : gmap string (list (pyval F))) :
  dd_get k d `prefix_of` dd_get k (dd_append k' v d).
Proof.
  destruct (decide (k' = k)) as [->|Hne].
  - rewrite dd_get_append_eq. now apply prefix_app_r.
  - now rewrite dd_get_append_ne.
Qed.

(** Whether [fit()] completes or raises part-way, it only ever appends:
    each history and the printed output afterwards start with what they
    held before; and it never touches the two stores, [n_epochs] or the
    verbosity. *)
Theorem fit_only_appends (w : world F) :
  (forall k, dd_get k (losses (self w))
             `prefix_of` dd_get k (losses (self (snd (fit w)))))
  /\ stdout w `prefix_of` stdout (snd (fit w))
  /\ train_interactions (self (snd (fit w))) = train_interactions (self w)
  /\ test_interactions (self (snd (fit w))) = test_interactions (self w)
  /\ n_epochs (self (snd (fit w))) = n_epochs (self w)
  /\ verbose (self (snd (fit w))) = verbose (self w).
Proof.
  apply (wrespects_fit
           (fun u v =>
              (forall k, dd_get k (losses (self u))
                         `prefix_of` dd_get k (losses (self v)))
              /\ stdout u `prefix_of` stdout v
              /\ train_interactions (self v) = train_interactions (self u)
              /\ test_interactions (self v) = test_interactions (self u)
              /\ n_epochs (self v) = n_epochs (self u)
              /\ verbose (self v) = verbose (self u))).
  - intros u. repeat split; reflexivity.
  - intros u v x (A1 & A2 & A3 & A4 & A5 & A6) (B1 & B2 & B3 & B4 & B5 & B6).
    split; [intros k; etransitivity; [apply A1 | apply B1]|].
    split; [etransitivity; eassumption|]. repeat split; congruence.
  - intros u g. repeat split; reflexivity.
  - intros u o ps. repeat split; reflexivity.
  - intros u b. repeat split; reflexivity.
  - intros u k v. cbn. split; [intros k'; apply dd_get_append_prefix|].
    repeat split; reflexivity.
  - intros u r. cbn. split; [reflexivity|].
    split; [now apply prefix_app_r|]. repeat split; reflexivity.
Qed.

End FitAnyRun.

(** ** Construction, and runs that complete *)

Section Completion.

Context {F : Type} `{Scalar F} `{Random F} `{!Autograd F}.

Lemma bind_get_gen {B : Type} (k : rng -> stateR (world F) B) (w : world F) :
  (get_gen ≫= k) w = k (gen w) w.
Proof. reflexivity. Qed.

Lemma bind_with_gen {A B : Type} (m : stateR rng A)
    (k : A -> stateR (world F) B) (w : world F) :
  (with_gen m ≫= k) w =
  match m (gen w) with
  | (Ok a, g') => k a {| self := self w; gen := g'; stdout := stdout w |}
  | (Raise e, g') =>
      (Raise e, {| self := self w; gen := g'; stdout := stdout w |})
  end.
Proof.
  unfold mbind, stateR_bind, with_gen.
  now destruct (m (gen w)) as [[a|e] g'].
Qed.



(** A pipeline that was constructed: test data was given and the model
    class was [BaseModule]; the two stores serve the train and the test
    split of the same pair of matrices; the module has one row per user and
    per item of the declared train shape, is in training mode and carries
    the given dropout probability; the histories are empty. *)
Theorem BasePipeline_init_builds (tr : spmatrix F)
    (te0 : option (spmatrix F)) (cls : model_class)
    (n_factors0 batch_size0 : Z) (dropout_p0 lr0 weight_decay0 : F)
    (loss_function0 : list F -> list F -> tensor F) (n_epochs0 : Z) (verbose0 : bool)
    (random_seed : option Z) (g g' : rng) (p : BasePipeline F) :
  BasePipeline_init tr te0 cls n_factors0 batch_size0 dropout_p0 lr0
    weight_decay0 loss_function0 n_epochs0 verbose0 random_seed g = (Ok p, g') ->
  cls = BaseModule_cls
  /\ (exists te ti,
        te0 = Some te
        /\ Interactions_init tr (Some te) true = Ok (train_interactions p)
        /\ test_interactions p = Some ti
        /\ Interactions_init tr (Some te) false = Ok ti)
  /\ wf_module (model p)
  /\ mod_n_users (model p) = fst (sp_shape tr)
  /\ mod_n_items (model p) = snd (sp_shape tr)
  /\ training (model p) = true
  /\ dropout_p (model p) = dropout_p0
  /\ n_epochs p = n_epochs0
  /\ verbose p = verbose0
  /\ losses p = ∅.
Proof.
  unfold BasePipeline_init.
  destruct te0 as [te|]; [|discriminate].
  rewrite !Interactions_init_Some, bind_lift_Ok.
  destruct (DataLoader_init _) as [[]|e]; [|discriminate].
  rewrite bind_lift_Ok, bind_run, bind_lift_Ok.
  destruct (DataLoader_init _) as [[]|e]; [|discriminate].
  rewrite bind_lift_Ok. cbn [mret stateR_ret].
  destruct cls; [|discriminate].
  rewrite bind_run.
  destruct (BaseModule_init _ _ _ _ _ g) as [[m|e] g1] eqn:Em; [|discriminate].
  destruct (BaseModule_init_Ok _ _ _ _ _ _ _ _ Em) as (Hwf & Ht & Hp & Hu & Hi).
  destruct random_seed as [seed|]; cbn; intros [= <- <-]; cbn;
    (split; [reflexivity|]);
    (split; [exists te; eexists; repeat split|]); auto 10.
Qed.


Lemma getitem_fits (ds : Interactions F) (m : BaseModule F) (i : nat) :
  store_fits ds m ->
  Z.of_nat i < Interactions_len ds ->
  exists r c v,
    Interactions_getitem ds (Z.of_nat i) = Ok ((r, c), v)
    /\ in_range (mod_n_users m) r /\ in_range (mod_n_items m) c.
Proof.
  intros (Lr & Lc & Lv & Hr & Hc) Hi.
  destruct (lookup_lt_is_Some_2 (split_row ds) i) as [r Er]; [lia|].
  destruct (lookup_lt_is_Some_2 (split_col ds) i) as [c Ec]; [lia|].
  destruct (lookup_lt_is_Some_2 (split_val ds) i) as [v Ev]; [lia|].
  exists r, c, v. rewrite Interactions_getitem_split.
  pose proof (Nat2Z.is_nonneg i) as Hpos.
  rewrite (tensor_getitem_nonneg (split_row ds) _ r Hpos) by now rewrite Nat2Z.id.
  rewrite (tensor_getitem_nonneg (split_col ds) _ c Hpos) by now rewrite Nat2Z.id.
  rewrite (tensor_getitem_nonneg (split_val ds) _ v Hpos) by now rewrite Nat2Z.id.
  split; [reflexivity|].
  rewrite Forall_lookup in Hr, Hc. eauto.
Qed.

End Completion.

(** ** The shape of a constructed module *)

Section ModuleShapes.

Context {F : Type} `{Scalar F} `{Random F}.

Lemma Embedding_init_shape (n d : Z) (g g' : rng) (w : list (list F)) :
  Embedding_init n d g = (Ok w, g') ->
  0 <= n /\ 0 <= d /\ Z.of_nat (length w) = n
  /\ Forall (fun r => Z.of_nat (length r) = d) w.
Proof.
  unfold Embedding_init.
  destruct (Z.ltb_spec n 0) as [Hn|Hn]; [discriminate|].
  destruct (Z.ltb_spec d 0) as [Hd|Hd]; [discriminate|]. cbn [orb].
  unfold total.
  pose proof (length_draw_matrix rng_normal (Z.to_nat n) (Z.to_nat d) g) as Hl.
  pose proof (draw_matrix_width rng_normal (Z.to_nat n) (Z.to_nat d) g) as Hw.
  destruct (draw_matrix rng_normal (Z.to_nat n) (Z.to_nat d) g) as [w0 g0].
  intros [= <- <-]. cbn in Hl, Hw.
  repeat split; try lia.
  eapply Forall_impl; [exact Hw|]. intros r Hr. cbn beta in Hr. lia.
Qed.

(** A module that was constructed has non-negative sizes, one bias and
    one factor row per user and per item, every factor row [n_factors]
    wide, and starts in training mode with the dropout probability it was
    given. *)
Theorem BaseModule_init_shapes (n_users0 n_items0 n_factors0 : Z)
    (dropout_p0 : F) (loss_function0 : list F -> list F -> tensor F) (g g' : rng)
    (m : BaseModule F) :
  BaseModule_init n_users0 n_items0 n_factors0 dropout_p0 loss_function0 g
  = (Ok m, g') ->
  0 <= n_users0 /\ 0 <= n_items0 /\ 0 <= n_factors0
  /\ mod_n_users m = n_users0 /\ mod_n_items m = n_items0
  /\ Z.of_nat (length (user_biases (parameters m))) = n_users0
  /\ Z.of_nat (length (item_biases (parameters m))) = n_items0
  /\ Z.of_nat (length (user_embeddings (parameters m))) = n_users0
  /\ Z.of_nat (length (item_embeddings (parameters m))) = n_items0
  /\ Forall (fun r => Z.of_nat (length r) = n_factors0)
            (user_embeddings (parameters m))
  /\ Forall (fun r => Z.of_nat (length r) = n_factors0)
            (item_embeddings (parameters m))
  /\ training m = true
  /\ dropout_p m = dropout_p0.
Proof.
  unfold BaseModule_init. rewrite bind_run.
  destruct (Embedding_init n_users0 1 g) as [[ub|e] g1] eqn:E1; [|discriminate].
  rewrite bind_run.
  destruct (Embedding_init n_items0 1 g1) as [[ib|e] g2] eqn:E2; [|discriminate].
  rewrite bind_run.
  destruct (Embedding_init n_users0 n_factors0 g2) as [[ue|e] g3] eqn:E3;
    [|discriminate].
  rewrite bind_run.
  destruct (Embedding_init n_items0 n_factors0 g3) as [[ie|e] g4] eqn:E4;
    [|discriminate].
  destruct (fltb dropout_p0 fzero || fltb fone dropout_p0); [discriminate|].
  intros [= <- <-]. unfold column. cbn. rewrite !length_map.
  apply Embedding_init_shape in E1 as (A1 & _ & A3 & _).
  apply Embedding_init_shape in E2 as (B1 & _ & B3 & _).
  apply Embedding_init_shape in E3 as (_ & C2 & C3 & C4).
  apply Embedding_init_shape in E4 as (_ & _ & D3 & D4).
  auto 15.
Qed.

End ModuleShapes.

(** ** Runs that complete *)

Section Readiness.

Context {F : Type} `{Scalar F} `{Random F} `{!Autograd F}.

Lemma ready_in_mode (b : bool) (p : BasePipeline F) :
  ready p -> ready (in_mode b p).
Proof. intros Hr. exact Hr. Qed.

Lemma ready_set_losses (L : gmap string (list (pyval F)))
    (p : BasePipeline F) :
  ready p -> ready (set_losses L p).
Proof. intros Hr. exact Hr. Qed.

Lemma same_shape_width (d : nat) (l l' : list (list F)) :
  map length l' = map length l ->
  Forall (fun r => length r = d) l -> Forall (fun r => length r = d) l'.
Proof.
  intros Hmap Hl. revert l' Hmap.
  induction Hl as [|r l Hr _ IH]; intros [|r' l']; cbn; try discriminate;
    [constructor|].
  intros [= Hr' Hrest]. constructor; [congruence | now apply IH].
Qed.

Lemma ready_retrained (o : optim) (ps : Params F) (p : BasePipeline F) :
  same_shape (parameters (model p)) ps ->
  ready p -> ready (retrained o ps p).
Proof.
  intros (L1 & L2 & L3 & L4)
         ((W1 & W2 & W3 & W4) & (d & D1 & D2) & Hloss & Htr & Hlen & Hte).
  split; [|split; [|split; [exact Hloss|split; [exact Htr|split;
                                                   [exact Hlen|exact Hte]]]]].
  - unfold wf_module. cbn. rewrite L1, L2.
    apply (f_equal length) in L3, L4. rewrite !length_map in L3, L4.
    rewrite L3, L4. auto.
  - exists d. split; cbn; eapply same_shape_width; eassumption.
Qed.

Lemma constructed_len (tr te : spmatrix F) (flag : bool) (s : Interactions F) :
  Interactions_init tr (Some te) flag = Ok s ->
  Interactions_len s = Z.of_nat (length (sp_entries (if flag then tr else te))).
Proof.
  rewrite Interactions_init_Some. intros [= <-].
  unfold Interactions_len, nnz, tocoo. destruct flag; cbn;
    now rewrite length_map.
Qed.


(** One in-range pair through a well-shaped module returns one score. *)
Lemma forward_one_returns (m : BaseModule F) (d : nat) (u i : Z) (g : rng) :
  wf_module m -> factor_width d m ->
  in_range (mod_n_users m) u -> in_range (mod_n_items m) i ->
  exists s g', forward m [u] [i] g = (Ok [s], g').
Proof.
  intros Hwf [Du Di] Hu Hi.
  destruct (lookups_in_range m u i Hwf Hu Hi)
    as (ub & ib & uf & itf & Eub & Eib & Euf & Eif).
  destruct (dropout_single (training m) (dropout_p m) uf g)
    as (du & g1 & Ed & Hd).
  destruct (dropout_single (training m) (dropout_p m) itf g1)
    as (di & g2 & Ee & He).
  rewrite Forall_lookup in Du, Di.
  pose proof (Du _ _ Euf) as Wu. pose proof (Di _ _ Eif) as Wi.
  cbn beta in Wu, Wi.
  eexists _, _.
  apply (forward_single m u i g g1 g2 ub ib uf itf du di); try assumption;
    try apply Hu; try apply Hi.
  congruence.
Qed.

(** The one position of a one-entry store collates into one user, one
    item and one rating. *)
Lemma collate_one (ds : Interactions F) (m : BaseModule F) :
  store_fits ds m -> Interactions_len ds = 1 ->
  exists r c v,
    collate ds [0%nat] = Ok (([r], [c]), [v])
    /\ in_range (mod_n_users m) r /\ in_range (mod_n_items m) c.
Proof.
  intros Hfit Hlen. unfold collate. cbn [mapR].
  destruct (getitem_fits ds m 0 Hfit) as (r & c & v & Hget & Hr & Hc); [lia|].
  rewrite Hget.
  exists r, c, v. split; [reflexivity|]. auto.
Qed.

Lemma loss_backward_one (x : F) (r : result grads) :
  loss_backward (TN [T0 x]) r = r.
Proof. reflexivity. Qed.

Hypothesis Hopt : optimizer_keeps_shapes.
Hypothesis Hperm : randperm_permutes.
Hypothesis Hback : backward_returns.

(** The loader of a one-entry store yields one batch, of one position. *)
Lemma DataLoader_indices_one (ds : Interactions F) (w : world F) :
  Interactions_len ds = 1 ->
  exists g',
    DataLoader_indices ds w =
    (Ok [[0%nat]], {| self := self w; gen := g'; stdout := stdout w |}).
Proof.
  intros Hlen. unfold DataLoader_indices. rewrite Hlen, bind_with_gen.
  unfold total. change (Z.to_nat 1) with 1%nat.
  pose proof (Hperm 1%nat (gen w)) as Hp.
  destruct (rng_randperm 1 (gen w)) as [perm g']. cbn [fst seq] in Hp.
  apply Permutation_singleton_r in Hp. subst perm.
  eexists. reflexivity.
Qed.

Lemma fit_batch_returns (acc : F) (w : world F) :
  ready (self w) ->
  exists a w', fit_batch [0%nat] acc w = (Ok a, w') /\ ready (self w').
Proof.
  intros Hready. unfold fit_batch. rewrite bind_get_self.
  pose proof Hready as (Hwf & (d & Hd) & Hloss & Htr & Hlen & _).
  destruct (collate_one _ _ Htr Hlen) as (r & c & v & -> & Hr & Hc).
  rewrite bind_lift_Ok. cbv beta iota.
  rewrite bind_get_gen, bind_with_gen.
  destruct (forward_one_returns (model (self w)) d r c (gen w) Hwf Hd Hr Hc)
    as (s & g' & ->).
  cbv zeta. destruct (Hloss [s] [v]) as [x ->].
  rewrite loss_backward_one.
  destruct (Hback (model (self w)) (gen w) [r] [c] [v]) as [gr ->].
  rewrite bind_lift_Ok.
  pose proof (Hopt (optimizer (self w)) (parameters (model (self w))) gr)
    as Hshape.
  destruct (optimizer_step _ _ _) as [o' ps']. cbn [snd] in Hshape.
  rewrite bind_modify_self. cbn [tensor_first]. rewrite bind_lift_Ok.
  eexists _, _. split; [reflexivity|].
  cbn [self]. fold (retrained o' ps' (self w)).
  now apply ready_retrained.
Qed.

Lemma _fit_epoch_returns (w : world F) :
  ready (self w) ->
  exists l w', _fit_epoch w = (Ok l, w') /\ ready (self w').
Proof.
  intros Hready. unfold _fit_epoch.
  rewrite bind_modify_self, bind_get_self. cbn [self].
  fold (in_mode true (self w)).
  pose proof (ready_in_mode true _ Hready) as Hready'.
  pose proof Hready' as (_ & _ & _ & _ & Hlen & _).
  rewrite bind_run.
  match goal with |- context [DataLoader_indices ?d ?x] =>
    destruct (DataLoader_indices_one d x Hlen) as (g' & ->)
  end.
  cbn [for_batches]. rewrite bind_run, bind_run.
  match goal with |- context [fit_batch [0%nat] fzero ?x] =>
    destruct (fit_batch_returns fzero x Hready') as (a & w1 & -> & Hr1)
  end.
  eexists _, _. split; [reflexivity|]. exact Hr1.
Qed.

Lemma validation_batch_returns (ds : Interactions F) (acc : F) (w : world F) :
  ready (self w) ->
  store_fits ds (model (self w)) -> Interactions_len ds = 1 ->
  exists a g',
    validation_batch ds [0%nat] acc w =
    (Ok a, {| self := self w; gen := g'; stdout := stdout w |}).
Proof.
  intros (Hwf & (d & Hd) & Hloss & _) Hfit Hlen.
  unfold validation_batch. rewrite bind_get_self.
  destruct (collate_one _ _ Hfit Hlen) as (r & c & v & -> & Hr & Hc).
  rewrite bind_lift_Ok. cbv beta iota. rewrite bind_with_gen.
  destruct (forward_one_returns (model (self w)) d r c (gen w) Hwf Hd Hr Hc)
    as (s & g' & ->).
  cbv zeta. destruct (Hloss [s] [v]) as [x ->].
  cbn [tensor_first]. rewrite bind_lift_Ok.
  eexists _, _. reflexivity.
Qed.

Lemma _validation_loss_returns (w : world F) :
  ready (self w) ->
  exists v w', _validation_loss w = (Ok v, w') /\ ready (self w').
Proof.
  intros Hready. unfold _validation_loss.
  rewrite bind_modify_self, bind_get_self. cbn [self].
  fold (in_mode false (self w)).
  pose proof (ready_in_mode false _ Hready) as Hready'.
  pose proof Hready' as (_ & _ & _ & _ & _ & tds & Hts & Hte & Hlen).
  rewrite Hts, bind_run.
  match goal with |- context [DataLoader_indices ?d ?x] =>
    destruct (DataLoader_indices_one d x Hlen) as (g' & ->)
  end.
  cbn [for_batches]. rewrite bind_run, bind_run.
  match goal with |- context [validation_batch tds [0%nat] fzero ?x] =>
    destruct (validation_batch_returns tds fzero x Hready' Hte Hlen)
      as (a & g1 & ->)
  end.
  eexists _, _. split; [reflexivity|]. exact Hready'.
Qed.

Lemma fit_step_returns (epoch : Z) (w : world F) :
  ready (self w) ->
  exists w', fit_step epoch w = (Ok tt, w') /\ ready (self w').
Proof.
  intros Hready. unfold fit_step. rewrite bind_run.
  destruct (_fit_epoch_returns w Hready) as (l & w1 & -> & Hr1).
  rewrite bind_modify_self, bind_get_self.
  cbn [self test_interactions verbose set_losses].
  pose proof Hr1 as (_ & _ & _ & _ & _ & tds & Hts & _). rewrite Hts, bind_run.
  match goal with |- context [_validation_loss ?x] =>
    destruct (_validation_loss_returns x) as (v & w2 & -> & Hr2);
      [cbn [self]; now apply ready_set_losses|]
  end.
  rewrite !bind_modify_self.
  destruct (verbose (self w1)); eexists; (split; [reflexivity|]);
    cbn [self]; now repeat apply ready_set_losses.
Qed.

Lemma fit_loop_returns (epochs : list Z) (w : world F) :
  ready (self w) ->
  exists w', fit_loop epochs w = (Ok tt, w') /\ ready (self w').
Proof.
  revert w. induction epochs as [|epoch rest IH]; intros w Hready;
    cbn [fit_loop].
  - eexists. split; [reflexivity | assumption].
  - rewrite bind_run.
    destruct (fit_step_returns epoch w Hready) as (w1 & -> & Hr1).
    now apply IH.
Qed.


(** On a pipeline whose module is well shaped, whose loss function
    returns a one-entry vector and whose two stores hold one entry each,
    with ids the module knows, with an optimizer that does not resize the
    tables, gradients for every batch and a loader that permutes the
    positions, [fit()] runs all its epochs and returns; the pipeline is
    then fit to be trained again. *)
Theorem fit_completes (w : world F) :
  ready (self w) ->
  exists w', fit w = (Ok tt, w') /\ ready (self w').
Proof.
  intros Hready. unfold fit. rewrite bind_get_self.
  now apply fit_loop_returns.
Qed.


End Readiness.
(** ** Runs that cannot complete *)

Section FailingRuns.

Context {F : Type} `{Scalar F} `{Random F} `{!Autograd F}.






Hypothesis Hperm : randperm_permutes.





End FailingRuns.

Section EmptySplits.

Context {F : Type} `{Scalar F} `{Random F} `{!Autograd F}.

Lemma DataLoader_init_empty (ds : Interactions F) :
  Interactions_len ds = 0 -> DataLoader_init ds = Raise ValueError.
Proof. intros Hlen. unfold DataLoader_init. now rewrite Hlen. Qed.

Lemma DataLoader_init_error (ds : Interactions F) (e : exn) :
  DataLoader_init ds = Raise e -> e = ValueError.
Proof.
  unfold DataLoader_init. destruct (_ <=? _); [|discriminate].
  now intros [= <-].
Qed.

(** A train or a test matrix without stored entries makes the constructor
    raise [ValueError] when it builds the shuffling loader of that split;
    no model is built and nothing is drawn from the generator. *)
Theorem BasePipeline_init_empty_split (tr te : spmatrix F)
    (cls : model_class) (n_factors0 batch_size0 : Z)
    (dropout_p0 lr0 weight_decay0 : F)
    (loss_function0 : list F -> list F -> tensor F) (n_epochs0 : Z)
    (verbose0 : bool) (random_seed : option Z) (g : rng) :
  sp_entries tr = [] \/ sp_entries te = [] ->
  BasePipeline_init tr (Some te) cls n_factors0 batch_size0 dropout_p0 lr0
    weight_decay0 loss_function0 n_epochs0 verbose0 random_seed g
  = (Raise ValueError, g).
Proof.
  intros Hempty. unfold BasePipeline_init.
  destruct (Interactions_init tr (Some te) true) as [ti|e1] eqn:Eti;
    [|rewrite Interactions_init_Some in Eti; discriminate].
  rewrite bind_lift_Ok.
  destruct (DataLoader_init ti) as [[]|e] eqn:Edl.
  - destruct Hempty as [Htr | Hte].
    + rewrite (DataLoader_init_empty ti) in Edl; [discriminate|].
      now rewrite (constructed_len _ _ _ _ Eti), Htr.
    + rewrite bind_lift_Ok, bind_run.
      destruct (Interactions_init tr (Some te) false) as [tei|e1] eqn:Etei;
        [|rewrite Interactions_init_Some in Etei; discriminate].
      rewrite bind_lift_Ok, (DataLoader_init_empty tei); [reflexivity|].
      now rewrite (constructed_len _ _ _ _ Etei), Hte.
  - rewrite bind_lift_Raise. now rewrite (DataLoader_init_error _ _ Edl).
Qed.

End EmptySplits.
(** ** More runs on concrete inputs *)

Section MoreRuns.

Import Example.

Lemma unit_step_keeps_shapes : optimizer_keeps_shapes (F := Z).
Proof.
  intros o ps gr. unfold same_shape. cbn. rewrite length_map. auto.
Defined.

Lemma counter_randperm_permutes : randperm_permutes (F := Z).
Proof. intros n g. reflexivity. Defined.

Lemma unit_backward_returns : backward_returns (F := Z).
Proof. intros m g rows cols vals. exists tt. reflexivity. Defined.

Lemma sse_vector_one_entry : loss_one_entry sse_vector.
Proof. intros preds vals. eexists. reflexivity. Defined.


Lemma Interactions_getitem_entry_witness :
  exists s, Interactions_init train3 (Some test3) false = Ok s
    /\ Interactions_getitem s (Z.of_nat 1) = Ok ((2, 1), fcast32 2).
Proof.
  eexists. split; [reflexivity|].
  apply (Interactions_getitem_entry train3 test3 false _ 1%nat 2 1 2);
    reflexivity.
Defined.

Lemma forward_out_of_range_witness :
  forward (tiny_module 3 false 0) [0; 1] [0; 0] (at_state 0)
  = (Raise IndexError, at_state 0).
Proof.
  apply forward_out_of_range; [apply tiny_module_wf|].
  left. apply Exists_cons_tl, Exists_cons_hd.
  unfold in_range. cbn. lia.
Defined.

Lemma forward_without_dropout_witness :
  snd (forward (tiny_module 3 true 0) [0] [1] (at_state 4)) = at_state 4
  /\ fst (forward (tiny_module 3 true 0) [0] [1] (at_state 4))
     = fst (forward (tiny_module 3 true 0) [0] [1] (at_state 9)).
Proof. apply forward_without_dropout. reflexivity. Defined.

Lemma BPR_forward_out_of_range_witness :
  BPR_forward (tiny_module 3 false 0) [0] [1] [2] (at_state 0)
  = (Raise IndexError, at_state 0).
Proof.
  apply BPR_forward_out_of_range; [apply tiny_module_wf|].
  right. right. apply Exists_cons_hd. unfold in_range. cbn. lia.
Defined.

Lemma BaseModule_init_shapes_witness :
  exists m g',
    BaseModule_init 3 2 2 0 mse_sum (at_state 0) = (Ok m, g')
    /\ Z.of_nat (length (user_embeddings (parameters m))) = 3
    /\ Forall (fun r => Z.of_nat (length r) = 2) (item_embeddings (parameters m))
    /\ training m = true.
Proof.
  destruct (BaseModule_init 3 2 2 0 mse_sum (at_state 0)) as [[m|e] g'] eqn:E;
    [|vm_compute in E; discriminate].
  exists m, g'. split; [reflexivity|].
  destruct (BaseModule_init_shapes _ _ _ _ _ _ _ _ E)
    as (_ & _ & _ & _ & _ & _ & _ & Hue & _ & _ & Hie & Ht & _).
  auto.
Defined.

Lemma BasePipeline_init_builds_witness :
  exists p g',
    pipeline3 2 (at_state 0) = (Ok p, g')
    /\ wf_module (model p)
    /\ mod_n_users (model p) = 3 /\ mod_n_items (model p) = 2
    /\ losses p = ∅.
Proof.
  destruct (pipeline3 2 (at_state 0)) as [[p|e] g'] eqn:E;
    [|vm_compute in E; discriminate].
  exists p, g'. split; [reflexivity|].
  unfold pipeline3 in E.
  destruct (BasePipeline_init_builds _ _ _ _ _ _ _ _ _ _ _ _ _ _ _ E)
    as (_ & _ & Hwf & Hu & Hi & _ & _ & _ & _ & Hl).
  auto.
Defined.

Lemma fit_no_epochs_witness :
  match started (pipeline3 (-3) (at_state 0)) with
  | Some w => fit w = (Ok tt, w)
  | None => False
  end.
Proof.
  destruct (started (pipeline3 (-3) (at_state 0))) as [w|] eqn:E;
    [|vm_compute in E; discriminate].
  apply fit_no_epochs.
  vm_compute in E. injection E as <-. vm_compute. discriminate.
Defined.

Lemma pipeline1_ready (n : Z) :
  match started (pipeline1 n (at_state 0)) with
  | Some w => ready (self w)
  | None => False
  end.
Proof.
  destruct (started (pipeline1 n (at_state 0))) as [w|] eqn:E;
    [|vm_compute in E; discriminate].
  vm_compute in E. injection E as <-.
  unfold ready, wf_module, factor_width, store_fits, in_range. cbn.
  split; [repeat split|].
  split; [exists 2%nat; split; repeat constructor|].
  split; [exact sse_vector_one_entry|].
  split; [repeat split; repeat constructor; lia|].
  split; [reflexivity|].
  eexists. split; [reflexivity|].
  cbn. repeat split; repeat constructor; lia.
Defined.

Lemma fit_completes_witness :
  match started (pipeline1 2 (at_state 0)) with
  | Some w => exists w', fit w = (Ok tt, w')
  | None => False
  end.
Proof.
  pose proof (pipeline1_ready 2) as Hready.
  destruct (started (pipeline1 2 (at_state 0))) as [w|]; [|exact Hready].
  destruct (fit_completes unit_step_keeps_shapes counter_randperm_permutes
              unit_backward_returns w Hready) as (w' & Hfit & _).
  now exists w'.
Defined.


Lemma fit_records_witness :
  match started (pipeline1 2 (at_state 0)) with
  | Some w =>
      exists tr te,
        length tr = 2%nat /\ length te = 2%nat
        /\ dd_get "epoch" (losses (self (snd (fit w)))) = [PyInt 0; PyInt 1]
        /\ stdout (snd (fit w)) = progress_rows [0; 1] tr te
  | None => False
  end.
Proof.
  unfold started.
  destruct (pipeline1 2 (at_state 0)) as [[p|e] g] eqn:Ep;
    [|vm_compute in Ep; discriminate].
  vm_compute in Ep. injection Ep as <- <-.
  match goal with |- context [fit ?w0] => set (w := w0) in * end.
  assert (Hrun : fit w = (Ok tt, snd (fit w))) by (vm_compute; reflexivity).
  destruct (fit_records w _ Hrun) as (tr & te & Ltr & Lte & _ & _ & Eep & Eout).
  exists tr, te. split; [exact Ltr|]. split; [exact Lte|].
  split; [exact Eep | exact Eout].
Defined.

Lemma fit_leaves_evaluation_mode_witness :
  match started (pipeline1 2 (at_state 0)) with
  | Some w =>
      training (model (self w)) = true
      /\ training (model (self (snd (fit w)))) = false
  | None => False
  end.
Proof.
  unfold started.
  destruct (pipeline1 2 (at_state 0)) as [[p|e] g] eqn:Ep;
    [|vm_compute in Ep; discriminate].
  vm_compute in Ep. injection Ep as <- <-.
  match goal with |- context [fit ?w0] => set (w := w0) in * end.
  assert (Hrun : fit w = (Ok tt, snd (fit w))) by (vm_compute; reflexivity).
  assert (Hn : 1 <= n_epochs (self w)) by (vm_compute; discriminate).
  destruct (fit_leaves_evaluation_mode w _ Hn Hrun) as (_ & Hmode & _).
  split; [reflexivity | exact Hmode].
Defined.



Lemma BasePipeline_init_empty_split_witness :
  BasePipeline_init train3 (Some empty32) BaseModule_cls 2 32 0 1 0 mse_sum 2
    true (Some 7) (at_state 0)
  = (Raise ValueError, at_state 0).
Proof. apply BasePipeline_init_empty_split. right. reflexivity. Defined.

End MoreRuns.
